(** * GitSavvy dashboards: branch and status interfaces

    A shallow embedding of [core/interfaces/branch.py] and
    [core/interfaces/status.py].  Python strings are sequences of Unicode
    code points; the commands of the two modules are computations in a
    small writer-and-exception monad whose log records every call made to
    the host editor and to the [GitCommand] mixin. *)

From Stdlib Require Import Ascii String.
From Stdlib Require Import List ZArith NArith Bool Lia.
From Stdlib Require Import PrimFloat SpecFloat FloatOps DecimalString.
Import ListNotations.

Set Implicit Arguments.
#[local] Set Warnings "-register-all".

(** ** Python values *)

Module Py.

(** A Python [str] is a sequence of code points. *)
Definition char := N.
Definition str := list char.

(** An ASCII literal of the source. *)
Definition lit (s : string) : str :=
  map N_of_ascii (list_ascii_of_string s).

(** ["\n"] *)
Definition nl : str := [10%N].

Definition char_eqb : char -> char -> bool := N.eqb.

Fixpoint eqb (a b : str) : bool :=
  match a, b with
  | [], [] => true
  | x :: a', y :: b' => char_eqb x y && eqb a' b'
  | _, _ => false
  end.

(** Truth value of a [str]: false exactly for the empty string. *)
Definition truthy (s : str) : bool :=
  match s with [] => false | _ :: _ => true end.

(** Truth value of a value that is [None] or a [str]. *)
Definition truthy_opt (o : option str) : bool :=
  match o with None => false | Some s => truthy s end.

(** Truth value of a list or tuple. *)
Definition nonempty {A} (l : list A) : bool :=
  match l with [] => false | _ :: _ => true end.

(** [sep.join(parts)] *)
Fixpoint join (sep : str) (parts : list str) : str :=
  match parts with
  | [] => []
  | [p] => p
  | p :: rest => p ++ sep ++ join sep rest
  end.

(** Index normalisation of a slice bound: a negative bound counts from
    the end, and every bound is clamped to [0, len]. *)
Definition clamp (len i : Z) : Z :=
  if (i <? 0)%Z then Z.max 0 (i + len) else Z.min i len.

(** [s[lo:hi]]; [hi = None] is the open slice [s[lo:]]. *)
Definition slice (s : str) (lo : Z) (hi : option Z) : str :=
  let len := Z.of_nat (length s) in
  let a := clamp len lo in
  let b := match hi with Some h => clamp len h | None => len end in
  firstn (Z.to_nat (b - a)) (skipn (Z.to_nat a) s).

(** [str.isspace] on one code point. *)
Definition isspace (c : char) : bool :=
  ((9 <=? c) && (c <=? 13) || (28 <=? c) && (c <=? 32)
   || (c =? 133) || (c =? 160) || (c =? 5760)
   || (8192 <=? c) && (c <=? 8202)
   || (c =? 8232) || (c =? 8233) || (c =? 8239) || (c =? 8287)
   || (c =? 12288))%N.

Fixpoint lstrip (s : str) : str :=
  match s with
  | c :: s' => if isspace c then lstrip s' else s
  | [] => []
  end.

Definition rstrip (s : str) : str := rev (lstrip (rev s)).

(** [s.strip()] *)
Definition strip (s : str) : str := rstrip (lstrip s).

Fixpoint startswith (s p : str) : bool :=
  match p, s with
  | [], _ => true
  | x :: p', y :: s' => char_eqb x y && startswith s' p'
  | _ :: _, [] => false
  end.

Definition endswith (s p : str) : bool := startswith (rev s) (rev p).

Fixpoint find_from (s sub : str) (i : Z) : Z :=
  match s with
  | [] => if startswith [] sub then i else (-1)%Z
  | _ :: s' => if startswith s sub then i else find_from s' sub (i + 1)
  end.

(** [s.find(sub)]: the lowest index of [sub] in [s], or [-1]. *)
Definition find (s sub : str) : Z := find_from s sub 0.

(** [s.split(sep)] for a separator of one code point. *)
Fixpoint split (sep : char) (s : str) : list str :=
  match s with
  | [] => [[]]
  | c :: s' =>
      if char_eqb c sep then [] :: split sep s'
      else match split sep s' with
           | w :: ws => (c :: w) :: ws
           | [] => [[c]]
           end
  end.

(** [sub in s] *)
Fixpoint contains (s sub : str) : bool :=
  match s with
  | [] => startswith [] sub
  | _ :: s' => startswith s sub || contains s' sub
  end.

(** [posixpath.join(a, b)] *)
Definition path_join (a b : str) : str :=
  if startswith b (lit "/") then b
  else if negb (truthy a) || endswith a (lit "/") then a ++ b
  else a ++ lit "/" ++ b.

(** [itertools.groupby(iterable, key)]: the maximal runs of consecutive
    elements with equal keys, each with the key of its first element. *)
Fixpoint groupby {A K} (keq : K -> K -> bool) (key : A -> K) (l : list A)
  : list (K * list A) :=
  match l with
  | [] => []
  | x :: xs =>
      match groupby keq key xs with
      | (k, g) :: rest =>
          if keq (key x) k then (key x, x :: g) :: rest
          else (key x, [x]) :: (k, g) :: rest
      | [] => [(key x, [x])]
      end
  end.

(** [str(o)] for a value that is [None] or a [str], as [str.format]
    inserts it. *)
Definition str_of (o : option str) : str :=
  match o with Some s => s | None => lit "None" end.

(** [==] on values that are [None] or a [str]. *)
Definition opt_eqb (a b : option str) : bool :=
  match a, b with
  | None, None => true
  | Some x, Some y => eqb x y
  | _, _ => false
  end.

(** *** Numbers

    A Python number is an [int] or a [float] (IEEE 754 binary64). *)

Inductive num :=
| PInt (z : Z)
| PFloat (f : float).

(** [float(z)], correctly rounded. *)
Definition float_of_int (z : Z) : float :=
  SF2Prim (binary_normalize prec emax z 0 false).

Definition exact_of_int (z : Z) : spec_float :=
  match z with
  | Z0 => S754_zero false
  | Zpos p => S754_finite false p 0
  | Zneg p => S754_finite true p 0
  end.

(** [a / b] on two [int]s: the correctly rounded quotient. *)
Definition int_truediv (a b : Z) : float :=
  SF2Prim (SFdiv prec emax (exact_of_int a) (exact_of_int b)).

(** [x == k] for an [int] constant [k] that a [float] holds exactly. *)
Definition num_eq_int (x : num) (k : Z) : bool :=
  match x with
  | PInt z => (z =? k)%Z
  | PFloat f => PrimFloat.eqb f (float_of_int k)
  end.

(** [k - x] for an [int] [k]: exact on an [int], and on a [float] the
    difference of floats after [float(k)]. *)
Definition int_sub (k : Z) (x : num) : num :=
  match x with
  | PInt z => PInt (k - z)
  | PFloat f => PFloat (PrimFloat.sub (float_of_int k) f)
  end.

(** [x < k] for an [int] constant [k] that a [float] holds exactly. *)
Definition num_lt_int (x : num) (k : Z) : bool :=
  match x with
  | PInt z => (z <? k)%Z
  | PFloat f => PrimFloat.ltb f (float_of_int k)
  end.

(** [x / k] for an [int] constant [k] that a [float] holds exactly:
    always a [float]. *)
Definition num_truediv_int (x : num) (k : Z) : num :=
  match x with
  | PInt z => PFloat (int_truediv z k)
  | PFloat f => PFloat (PrimFloat.div f (float_of_int k))
  end.

(** The integer nearest to [m * 2^e], ties to even. *)
Definition round_half_even (m : positive) (e : Z) : Z :=
  match e with
  | Zneg p =>
      let d := Z.pow_pos 2 p in
      let q := (Zpos m / d)%Z in
      let r := (Zpos m mod d)%Z in
      match (2 * r ?= d)%Z with
      | Lt => q
      | Gt => (q + 1)%Z
      | Eq => if Z.even q then q else (q + 1)%Z
      end
  | _ => (Zpos m * 2 ^ e)%Z
  end.

Definition decimal (z : Z) : str :=
  lit (NilZero.string_of_uint (N.to_uint (Z.to_N z))).

(** ["{:.0f}".format(f)] *)
Definition format_0f (f : float) : str :=
  match Prim2SF f with
  | S754_nan => lit "nan"
  | S754_infinity s => if s then lit "-inf" else lit "inf"
  | S754_zero s => if s then lit "-0" else lit "0"
  | S754_finite s m e =>
      (if s then lit "-" else []) ++ decimal (round_half_even m e)
  end.

(** Right alignment in a field of [width] characters. *)
Definition pad_left (width : nat) (s : str) : str :=
  repeat 32%N (width - length s) ++ s.

(** ["{0:2.0f}".format(x)] *)
Definition format_2_0f (x : num) : str :=
  pad_left 2 (format_0f match x with
                        | PInt z => float_of_int z
                        | PFloat f => f
                        end).

Fixpoint rfind_from (s sub : str) (i last : Z) : Z :=
  match s with
  | [] => if startswith [] sub then i else last
  | _ :: s' =>
      rfind_from s' sub (i + 1) (if startswith s sub then i else last)
  end.

(** [s.rfind(sub)]: the highest index of [sub] in [s], or [-1]. *)
Definition rfind (s sub : str) : Z := rfind_from s sub 0 (-1).

(** [posixpath.basename(p)]: [p[p.rfind("/") + 1:]]. *)
Definition basename (p : str) : str :=
  slice p (rfind p (lit "/") + 1) None.

End Py.

Abbreviation pystr := Py.str.
Notation "'py' s" := (Py.lit s%string) (at level 1, only parsing).

(** ** The host editor and the git mixin, as seen by a command *)

Module Host.

(** [sublime.Region(a, b)] *)
Record Region := {
  region_a : Z;
  region_b : Z
}.

(** The token the host passes to [TextCommand.run]. *)
Record Edit := {
  edit_token : Z
}.

Inductive exn :=
| IndexError.

(** A row of [GitCommand.get_status]. *)
Record FileStatus := {
  path : pystr;
  path_alt : option pystr;
  index_status : pystr;
  working_status : pystr;
  modified : Py.num
}.

(** A value in the argument dict of a [run_command] call. *)
Inductive arg :=
| AStr (s : pystr)
| ABool (b : bool)
| AStrs (l : list pystr)
| ADict (d : list (pystr * pystr)).

(** The methods of the [GitCommand] mixin that the commands call. *)
Inductive git_call :=
| stage_file (fpath : pystr) (force : option bool)
| unstage_file (fpath : pystr)
| discard_untracked_file (fpath : pystr)
| checkout_file (fpath : pystr)
| add_all_tracked_files
| add_all_files
| unstage_all_files
| discard_all_unstaged
| add_ignore (path : pystr)
| launch_tool_for_file (fpath : pystr)
| git (args : list pystr).

(** One call leaving a command.  The callback handed to
    [sublime.set_timeout_async] is recorded with what it does when the
    host runs it: its own calls and whether it raises. *)
Inductive call :=
| window_open_file (path : pystr)
| window_run_command (name : pystr) (args : list (pystr * arg))
| view_run_command (name : pystr) (args : list (pystr * arg))
| window_status_message (msg : pystr)
| sublime_error_message (msg : pystr)
| refresh_gitsavvy
| set_timeout_async (callback : list call * option exn)
| GitCommand (c : git_call).

(** A computation: the calls it makes, in order, and its outcome, an
    exception or a value. *)
Definition M (A : Type) : Type := (list call * (exn + A))%type.

Definition ret {A} (x : A) : M A := ([], inr x).

Definition bind {A B} (m : M A) (k : A -> M B) : M B :=
  match m with
  | (log, inl e) => (log, inl e)
  | (log, inr x) => let '(log', r) := k x in (log ++ log', r)
  end.

Definition emit (c : call) : M unit := ([c], inr tt).

Definition raise {A} (e : exn) : M A := ([], inl e).

(** [pass], and the [None] a [run] method returns. *)
Definition pass : M unit := ret tt.

(** [for x in xs: body(x)] *)
Fixpoint for_each {A} (xs : list A) (body : A -> M unit) : M unit :=
  match xs with
  | [] => ret tt
  | x :: xs' => bind (body x) (fun _ => for_each xs' body)
  end.

(** [xs[0]] *)
Definition index0 {A} (xs : list A) : M A :=
  match xs with
  | x :: _ => ret x
  | [] => raise IndexError
  end.

(** [sublime.set_timeout_async(callback, 0)] *)
Definition defer (callback : M unit) : M unit :=
  emit (set_timeout_async
          (fst callback,
           match snd callback with inl e => Some e | inr _ => None end)).

(** Whether a call stays within the host editor: its windows, views,
    messages and command dispatch. *)
Fixpoint editor_call (c : call) : bool :=
  match c with
  | GitCommand _ => false
  | set_timeout_async (log, _) =>
      (fix all (l : list call) : bool :=
         match l with
         | [] => true
         | c' :: l' => editor_call c' && all l'
         end) log
  | _ => true
  end.

(** What a command reads: the view it is bound to, the interface of that
    view, and the helpers of [common.util] and [common.ui], whose code is
    not part of the two modules. *)
Record Env := {
  repo_path : pystr;
  (** [self.view.sel()] *)
  sel : list Region;
  (** [interface.get_view_regions(name)] *)
  get_view_regions : pystr -> list Region;
  (** [util.view.get_lines_from_regions(self.view, regions,
      valid_ranges=...)]; [None] when [valid_ranges] is not passed. *)
  get_lines_from_regions :
    list Region -> option (list Region) -> list pystr;
  (** [util.file.get_syntax_for_file(fpath)] *)
  get_syntax_for_file : pystr -> pystr;
  (** Whether a function wrapped by [util.actions.destructive(description)]
      is let through. *)
  destructive : pystr -> bool;
  (** [self.view.line(region)] *)
  view_line : Region -> Region;
  (** [self.view.substr(region)] *)
  view_substr : Region -> pystr;
  (** [interface.conflict_entries] *)
  interface_conflict_entries : list FileStatus
}.

(** The effect of a computation on a state of the world, for any way the
    host and git act on that state. *)
Definition exec {World A} (handle : call -> World -> World)
    (m : M A) (w : World) : World :=
  fold_left (fun w c => handle c w) (fst m) w.

(** The paths a log hands to [GitCommand.stage_file], in order. *)
Fixpoint staged_by (log : list call) : list pystr :=
  match log with
  | [] => []
  | GitCommand (stage_file fpath _) :: log' => fpath :: staged_by log'
  | _ :: log' => staged_by log'
  end.

(** The paths a log hands to [GitCommand.unstage_file], in order. *)
Fixpoint unstaged_by (log : list call) : list pystr :=
  match log with
  | [] => []
  | GitCommand (unstage_file fpath) :: log' => fpath :: unstaged_by log'
  | _ :: log' => unstaged_by log'
  end.

(** Whether a computation returns rather than raises. *)
Definition returns {A} (m : M A) : bool :=
  match snd m with
  | inr _ => true
  | inl _ => false
  end.

(** Whether every callback that a log schedules returns when the host
    runs it. *)
Definition callbacks_return (log : list call) : bool :=
  forallb (fun c =>
             match c with
             | set_timeout_async (_, Some _) => false
             | _ => true
             end) log.

(** A computation that returns and schedules no raising callback. *)
Definition quiet {A} (m : M A) : Prop :=
  returns m = true /\ callbacks_return (fst m) = true.

End Host.

Declare Scope py_scope.
Delimit Scope py_scope with py_m.
Notation "x <- m ;; k" := (Host.bind m (fun x => k))
  (at level 61, m at next level, right associativity) : py_scope.
Notation "m ;; k" := (Host.bind m (fun _ => k))
  (at level 61, right associativity) : py_scope.

(** ** The branch dashboard *)

Module Branch.

(** A row of [GitCommand.get_branches]; [remote], [tracking] and
    [tracking_status] are [None] or a string. *)
Record Branch := {
  name : pystr;
  remote : option pystr;
  commit_hash : pystr;
  tracking : option pystr;
  tracking_status : option pystr;
  active : bool
}.

Record BranchInterface := {
  repo_path : pystr;
  _branches : list Branch
}.

(** ["▸"], U+25B8 *)
Definition indicator_active : pystr := [9656%N].

(** The line that [render_branch_list] formats for one branch:
    ["  {indicator} {hash:.7} {name} {tracking}"]. *)
Definition tracking_suffix (branch : Branch) : pystr :=
  if Py.truthy_opt (tracking branch) then
    py"(" ++ Py.str_of (tracking branch)
      ++ (if Py.truthy_opt (tracking_status branch)
          then py", " ++ Py.str_of (tracking_status branch) else [])
      ++ py")"
  else [].

Definition branch_line (branch : Branch) : pystr :=
  py"  " ++ (if active branch then indicator_active else py" ")
    ++ py" " ++ firstn 7 (commit_hash branch)
    ++ py" " ++ name branch
    ++ py" " ++ tracking_suffix branch.

Definition render_git_root (self : BranchInterface) : pystr :=
  repo_path self.

Definition render_branch_list (self : BranchInterface)
    (branches : option (list Branch)) : pystr :=
  let branches :=
    match branches with
    | Some (b :: bs) => b :: bs
    | _ => filter (fun branch => negb (Py.truthy_opt (remote branch)))
                  (_branches self)
    end in
  Py.join Py.nl (map branch_line branches).

(** What [ui.partial(key)] makes of a render function. *)
Record partial := {
  partial_key : pystr;
  partial_fn : unit -> pystr
}.

(** [self.template_remote.format(remote_name=..., remote_branch_list=...)] *)
Definition template_remote_format (remote_name remote_branch_list : pystr)
  : pystr :=
  Py.nl ++ py"      REMOTE (" ++ remote_name ++ py"):" ++ Py.nl
    ++ py"    " ++ remote_branch_list.

(** One turn of the loop of [render_remotes]. *)
Definition render_remotes_step (self : BranchInterface)
    (acc : pystr * list partial) (group : option pystr * list Branch)
  : pystr * list partial :=
  let '(output_tmpl, render_fns) := acc in
  let '(remote_name, branches) := group in
  if negb (Py.truthy_opt remote_name) then acc
  else
    let remote_name := Py.str_of remote_name in
    let key := py"branch_list_" ++ remote_name in
    let output_tmpl := output_tmpl ++ (py"{" ++ key ++ py"}" ++ Py.nl) in
    let render :=
      {| partial_key := key;
         partial_fn := fun _ =>
           template_remote_format remote_name
             (render_branch_list self (Some branches)) |} in
    (output_tmpl, render_fns ++ [render]).

Definition render_remotes (self : BranchInterface)
  : pystr * list partial :=
  fold_left (render_remotes_step self)
            (Py.groupby Py.opt_eqb remote (_branches self))
            (Py.nl, []).

(** The groups that [render_remotes] does not skip: those whose remote
    name is a non-empty string. *)
Definition emitted (groups : list (option pystr * list Branch))
  : list (option pystr * list Branch) :=
  filter (fun g => Py.truthy_opt (fst g)) groups.

(** A branch of the remote [remote_name], and a list of branches in which
    the remote [origin] comes back after another remote. *)
Definition remote_branch (remote_name branch_name : pystr) : Branch :=
  {| name := branch_name;
     remote := Some remote_name;
     commit_hash := py"0123456789abcdef";
     tracking := None;
     tracking_status := None;
     active := false |}.

Definition interleaved_remotes : BranchInterface :=
  {| repo_path := py"/repo";
     _branches :=
       [ remote_branch (py"origin") (py"master");
         remote_branch (py"upstream") (py"master");
         remote_branch (py"origin") (py"dev") ] |}.

(** Whether consecutive groups have different keys. *)
Fixpoint keys_alternate {K A} (groups : list (K * list A)) : Prop :=
  match groups with
  | g1 :: (g2 :: _) as rest => fst g1 <> fst g2 /\ keys_alternate rest
  | _ => True
  end.

(** The action commands of the dashboard, one per [TextCommand] class. *)
Inductive command :=
| GsBranchesCheckoutCommand
| GsBranchesCreateNewCommand
| GsBranchesDeleteCommand
| GsBranchesRenameCommand
| GsBranchesConfigureTrackingCommand
| GsBranchesPushSelectedCommand
| GsBranchesPushAllCommand
| GsBranchesMergeSelectedCommand
| GsBranchesFetchAndMergeCommand
| GsBranchesDiffBranchCommand
| GsBranchesRefreshCommand.

Definition GsBranchesCheckoutCommand_run
    (self : Host.Env) (edit : Host.Edit) : Host.M unit := Host.pass.

Definition GsBranchesCreateNewCommand_run
    (self : Host.Env) (edit : Host.Edit) : Host.M unit := Host.pass.

Definition GsBranchesDeleteCommand_run
    (self : Host.Env) (edit : Host.Edit) : Host.M unit := Host.pass.

Definition GsBranchesRenameCommand_run
    (self : Host.Env) (edit : Host.Edit) : Host.M unit := Host.pass.

Definition GsBranchesConfigureTrackingCommand_run
    (self : Host.Env) (edit : Host.Edit) : Host.M unit := Host.pass.

Definition GsBranchesPushSelectedCommand_run
    (self : Host.Env) (edit : Host.Edit) : Host.M unit := Host.pass.

Definition GsBranchesPushAllCommand_run
    (self : Host.Env) (edit : Host.Edit) : Host.M unit := Host.pass.

Definition GsBranchesMergeSelectedCommand_run
    (self : Host.Env) (edit : Host.Edit) : Host.M unit := Host.pass.

Definition GsBranchesFetchAndMergeCommand_run
    (self : Host.Env) (edit : Host.Edit) : Host.M unit := Host.pass.

Definition GsBranchesDiffBranchCommand_run
    (self : Host.Env) (edit : Host.Edit) : Host.M unit := Host.pass.

Definition GsBranchesRefreshCommand_run
    (self : Host.Env) (edit : Host.Edit) : Host.M unit := Host.pass.

(** [c().run(edit)] on the view and repository described by [self]. *)
Definition run (c : command) (self : Host.Env) (edit : Host.Edit)
  : Host.M unit :=
  match c with
  | GsBranchesCheckoutCommand => GsBranchesCheckoutCommand_run self edit
  | GsBranchesCreateNewCommand => GsBranchesCreateNewCommand_run self edit
  | GsBranchesDeleteCommand => GsBranchesDeleteCommand_run self edit
  | GsBranchesRenameCommand => GsBranchesRenameCommand_run self edit
  | GsBranchesConfigureTrackingCommand =>
      GsBranchesConfigureTrackingCommand_run self edit
  | GsBranchesPushSelectedCommand =>
      GsBranchesPushSelectedCommand_run self edit
  | GsBranchesPushAllCommand => GsBranchesPushAllCommand_run self edit
  | GsBranchesMergeSelectedCommand =>
      GsBranchesMergeSelectedCommand_run self edit
  | GsBranchesFetchAndMergeCommand =>
      GsBranchesFetchAndMergeCommand_run self edit
  | GsBranchesDiffBranchCommand => GsBranchesDiffBranchCommand_run self edit
  | GsBranchesRefreshCommand => GsBranchesRefreshCommand_run self edit
  end.

Definition commands : list command :=
  [ GsBranchesCheckoutCommand; GsBranchesCreateNewCommand;
    GsBranchesDeleteCommand; GsBranchesRenameCommand;
    GsBranchesConfigureTrackingCommand; GsBranchesPushSelectedCommand;
    GsBranchesPushAllCommand; GsBranchesMergeSelectedCommand;
    GsBranchesFetchAndMergeCommand; GsBranchesDiffBranchCommand;
    GsBranchesRefreshCommand ].

Definition title (self : BranchInterface) : pystr :=
  py"BRANCHES: " ++ Py.basename (repo_path self).

End Branch.


(** ** The status dashboard *)

Module Status.

Import Host.
Local Open Scope py_scope.

(** The state of a [StatusInterface] after [pre_render], with what
    [format_modification_time] reads from its surroundings. *)
Record StatusInterface := {
  staged_entries : list FileStatus;
  unstaged_entries : list FileStatus;
  untracked_entries : list FileStatus;
  conflict_entries : list FileStatus;
  (** [self.savvy_settings.get("show_file_change_age")]; [None] when the
      setting is [None]. *)
  show_file_change_age : option bool;
  (** [calendar.timegm(time.gmtime())] *)
  now : Z
}.

(** The class attribute [conflicts_keybindings], line by line. *)
Definition conflicts_keybindings_literal : pystr :=
  Py.join Py.nl
    [ py"";
      py"    ###############";
      py"    ## CONFLICTS ##";
      py"    ###############";
      py"";
      py"    [y] use version from your commit";
      py"    [b] use version from the base";
      py"    " ].

(** The instance attribute that [__init__] computes from it. *)
Definition conflicts_keybindings : pystr :=
  Py.join Py.nl
    (map (fun line => Py.slice line 2 None)
         (Py.split 10%N conflicts_keybindings_literal)).

Definition template_staged_format (body : pystr) : pystr :=
  Py.nl ++ py"      STAGED:" ++ Py.nl ++ py"    " ++ body
    ++ Py.nl ++ py"    ".

Definition template_unstaged_format (body : pystr) : pystr :=
  Py.nl ++ py"      UNSTAGED:" ++ Py.nl ++ py"    " ++ body
    ++ Py.nl ++ py"    ".

Definition template_untracked_format (body : pystr) : pystr :=
  Py.nl ++ py"      UNTRACKED:" ++ Py.nl ++ py"    " ++ body
    ++ Py.nl ++ py"    ".

Definition template_merge_conflicts_format (body : pystr) : pystr :=
  Py.nl ++ py"      MERGE CONFLICTS:" ++ Py.nl ++ py"    " ++ body
    ++ Py.nl ++ py"    ".

Definition format_modification_time (self : StatusInterface) (ts : Py.num)
  : pystr :=
  match show_file_change_age self with
  | None => py"   "
  | Some _ =>
      if Py.num_eq_int ts 0 then py"   "
      else
        let delta := Py.int_sub (now self) ts in
        if Py.num_lt_int delta 60 then Py.format_2_0f delta ++ py"s"
        else
        let delta := Py.num_truediv_int delta 60 in
        if Py.num_lt_int delta 60 then Py.format_2_0f delta ++ py"m"
        else
        let delta := Py.num_truediv_int delta 60 in
        if Py.num_lt_int delta 60 then Py.format_2_0f delta ++ py"h"
        else
        let delta := Py.num_truediv_int delta 24 in
        if Py.num_lt_int delta 8 then Py.format_2_0f delta ++ py"d"
        else
        let delta := Py.num_truediv_int delta 7 in
        if Py.num_lt_int delta 4 then Py.format_2_0f delta ++ py"w"
        else
        let delta := Py.num_truediv_int delta 4 in
        if Py.num_lt_int delta 12 then Py.format_2_0f delta ++ py"M"
        else
        let delta := Py.num_truediv_int delta 12 in
        Py.format_2_0f delta ++ py"Y"
  end.

(** The units after seconds as a table: the divisor that takes the
    previous quotient to the unit, the bound below which the unit is used,
    and its letter. *)
Definition age_units : list (Z * Z * pystr) :=
  [ (60, 60, py"m"); (60, 60, py"h"); (24, 8, py"d");
    (7, 4, py"w"); (4, 12, py"M") ]%Z.

(** The first unit of the table whose quotient is below its bound; years,
    a twelfth of the last quotient, when there is none. *)
Fixpoint first_matching_unit (quotient : Py.num)
    (units : list (Z * Z * pystr)) : pystr :=
  match units with
  | [] => Py.format_2_0f (Py.num_truediv_int quotient 12) ++ py"Y"
  | (divisor, bound, letter) :: rest =>
      let quotient := Py.num_truediv_int quotient divisor in
      if Py.num_lt_int quotient bound
      then Py.format_2_0f quotient ++ letter
      else first_matching_unit quotient rest
  end.

(** The age of a change [delta] seconds old, by the first matching
    threshold. *)
Definition age_by_first_threshold (delta : Py.num) : pystr :=
  if Py.num_lt_int delta 60 then Py.format_2_0f delta ++ py"s"
  else first_matching_unit delta age_units.

(** A status interface that shows ages, at a fixed time. *)
Definition clean_interface (now_ : Z) : StatusInterface :=
  {| staged_entries := [];
     unstaged_entries := [];
     untracked_entries := [];
     conflict_entries := [];
     show_file_change_age := Some true;
     now := now_ |}.

(** The local function [get_path] of [render_staged_files]. *)
Definition get_path (file_status : FileStatus) : pystr :=
  if Py.truthy_opt (path_alt file_status)
  then Py.str_of (path_alt file_status) ++ py" -> " ++ path file_status
  else path file_status.

Definition render_staged_files (self : StatusInterface) : pystr :=
  if negb (Py.nonempty (staged_entries self)) then []
  else
    template_staged_format
      (Py.join Py.nl
         (map (fun f =>
                 py"  " ++ format_modification_time self (modified f)
                   ++ py" "
                   ++ (if Py.eqb (index_status f) (py"D")
                       then py"-" else py" ")
                   ++ py" " ++ get_path f)
              (staged_entries self))).

Definition render_unstaged_files (self : StatusInterface) : pystr :=
  if negb (Py.nonempty (unstaged_entries self)) then []
  else
    template_unstaged_format
      (Py.join Py.nl
         (map (fun f =>
                 py"  " ++ format_modification_time self (modified f)
                   ++ py" "
                   ++ (if Py.eqb (working_status f) (py"D")
                       then py"-" else py" ")
                   ++ py" " ++ path f)
              (unstaged_entries self))).

Definition render_untracked_files (self : StatusInterface) : pystr :=
  if negb (Py.nonempty (untracked_entries self)) then []
  else
    template_untracked_format
      (Py.join Py.nl
         (map (fun f =>
                 py"  " ++ format_modification_time self (modified f)
                   ++ py"   " ++ path f)
              (untracked_entries self))).

Definition render_merge_conflicts (self : StatusInterface) : pystr :=
  if negb (Py.nonempty (conflict_entries self)) then []
  else
    template_merge_conflicts_format
      (Py.join Py.nl
         (map (fun f => py"    " ++ path f)
              (conflict_entries self))).

Definition render_conflicts_bindings (self : StatusInterface) : pystr :=
  if Py.nonempty (conflict_entries self)
  then conflicts_keybindings else [].

Definition render_no_status_message (self : StatusInterface) : pystr :=
  if negb (Py.nonempty (staged_entries self)
           || Py.nonempty (unstaged_entries self)
           || Py.nonempty (untracked_entries self)
           || Py.nonempty (conflict_entries self))
  then Py.nl ++ py"    Your working directory is clean." ++ Py.nl
  else [].

(** *** The action commands of the status dashboard *)

(** [tuple(line[7:].strip() for line in lines if line)], the expression
    with which the commands read file paths off dashboard lines. *)
Definition file_paths_of (lines : list pystr) : list pystr :=
  map (fun line => Py.strip (Py.slice line 7 None))
      (filter Py.truthy lines).

(** [line[5:8] == "   "] *)
Definition is_file_line (line : pystr) : bool :=
  Py.eqb (Py.slice line 5 (Some 8%Z)) (py"   ").

Definition GsStatusOpenFileCommand_run (self : Env) (edit : Edit)
  : M unit :=
  let lines := get_lines_from_regions self (sel self) None in
  let file_paths :=
    map (fun line => Py.strip (Py.slice line 7 None))
        (filter is_file_line lines) in
  let abs_paths := map (Py.path_join (repo_path self)) file_paths in
  for_each abs_paths (fun path => emit (window_open_file path)).

Definition load_inline_diff_windows (self : Env)
    (non_cached_files cached_files : list pystr) : M unit :=
  for_each non_cached_files (fun fpath =>
    let syntax := get_syntax_for_file self fpath in
    let settings :=
      [ (py"git_savvy.file_path", fpath);
        (py"git_savvy.repo_path", repo_path self);
        (py"syntax", syntax) ] in
    emit (window_run_command (py"gs_inline_diff")
            [ (py"settings", ADict settings) ])) ;;
  for_each cached_files (fun fpath =>
    let syntax := get_syntax_for_file self fpath in
    let settings :=
      [ (py"git_savvy.file_path", fpath);
        (py"git_savvy.repo_path", repo_path self);
        (py"syntax", syntax) ] in
    emit (window_run_command (py"gs_inline_diff")
            [ (py"settings", ADict settings);
              (py"cached", ABool true) ])).

Definition GsStatusDiffInlineCommand_run (self : Env) (edit : Edit)
  : M unit :=
  let non_cached_sections :=
    get_view_regions self (py"unstaged_files")
      ++ get_view_regions self (py"merge_conflicts") in
  let non_cached_lines :=
    get_lines_from_regions self (sel self) (Some non_cached_sections) in
  let non_cached_files :=
    map (fun line =>
           Py.path_join (repo_path self) (Py.strip (Py.slice line 7 None)))
        (filter is_file_line non_cached_lines) in
  let cached_sections := get_view_regions self (py"staged_files") in
  let cached_lines :=
    get_lines_from_regions self (sel self) (Some cached_sections) in
  let cached_files :=
    map (fun line =>
           Py.path_join (repo_path self) (Py.strip (Py.slice line 7 None)))
        (filter is_file_line cached_lines) in
  defer (load_inline_diff_windows self non_cached_files cached_files).

Definition load_diff_windows (self : Env)
    (non_cached_files cached_files : list pystr) : M unit :=
  for_each non_cached_files (fun fpath =>
    emit (window_run_command (py"gs_diff")
            [ (py"file_path", AStr fpath);
              (py"current_file", ABool true) ])) ;;
  for_each cached_files (fun fpath =>
    emit (window_run_command (py"gs_diff")
            [ (py"file_path", AStr fpath);
              (py"in_cached_mode", ABool true);
              (py"current_file", ABool true) ])).

Definition GsStatusDiffCommand_run (self : Env) (edit : Edit) : M unit :=
  let non_cached_sections :=
    get_view_regions self (py"unstaged_files")
      ++ get_view_regions self (py"untracked_files")
      ++ get_view_regions self (py"merge_conflicts") in
  let non_cached_lines :=
    get_lines_from_regions self (sel self) (Some non_cached_sections) in
  let non_cached_files :=
    map (fun line =>
           Py.path_join (repo_path self) (Py.strip (Py.slice line 7 None)))
        (filter is_file_line non_cached_lines) in
  let cached_sections := get_view_regions self (py"staged_files") in
  let cached_lines :=
    get_lines_from_regions self (sel self) (Some cached_sections) in
  let cached_files :=
    map (fun line =>
           Py.path_join (repo_path self) (Py.strip (Py.slice line 7 None)))
        (filter is_file_line cached_lines) in
  defer (load_diff_windows self non_cached_files cached_files).

Definition GsStatusStageFileCommand_run (self : Env) (edit : Edit)
  : M unit :=
  let valid_ranges :=
    get_view_regions self (py"unstaged_files")
      ++ get_view_regions self (py"untracked_files")
      ++ get_view_regions self (py"merge_conflicts") in
  let lines :=
    get_lines_from_regions self (sel self) (Some valid_ranges) in
  let file_paths := file_paths_of lines in
  if Py.nonempty file_paths then
    for_each file_paths (fun fpath =>
      emit (GitCommand (stage_file fpath (Some false)))) ;;
    emit (window_status_message (py"Staged files successfully.")) ;;
    emit refresh_gitsavvy
  else pass.

Definition GsStatusUnstageFileCommand_run (self : Env) (edit : Edit)
  : M unit :=
  let valid_ranges := get_view_regions self (py"staged_files") in
  let lines :=
    get_lines_from_regions self (sel self) (Some valid_ranges) in
  let file_paths := file_paths_of lines in
  if Py.nonempty file_paths then
    for_each file_paths (fun fpath =>
      emit (GitCommand (unstage_file fpath))) ;;
    emit (window_status_message (py"Unstaged files successfully.")) ;;
    emit refresh_gitsavvy
  else pass.

Definition discard_untracked (self : Env) : M unit :=
  let valid_ranges := get_view_regions self (py"untracked_files") in
  let lines :=
    get_lines_from_regions self (sel self) (Some valid_ranges) in
  let file_paths := file_paths_of lines in
  let do_discard :=
    if destructive self (py"discard one or more untracked files") then
      for_each file_paths (fun fpath =>
        emit (GitCommand (discard_untracked_file fpath)))
    else pass in
  if Py.nonempty file_paths then do_discard else pass.

Definition discard_unstaged (self : Env) : M unit :=
  let valid_ranges :=
    get_view_regions self (py"unstaged_files")
      ++ get_view_regions self (py"merge_conflicts") in
  let lines :=
    get_lines_from_regions self (sel self) (Some valid_ranges) in
  let file_paths := file_paths_of lines in
  let do_discard :=
    if destructive self (py"discard one or more unstaged files") then
      for_each file_paths (fun fpath =>
        emit (GitCommand (checkout_file fpath)))
    else pass in
  if Py.nonempty file_paths then do_discard else pass.

Definition GsStatusDiscardChangesToFileCommand_run (self : Env)
    (edit : Edit) : M unit :=
  discard_untracked self ;;
  discard_unstaged self ;;
  emit refresh_gitsavvy ;;
  emit (window_status_message (py"Successfully discarded changes.")).

Definition GsStatusOpenFileOnRemoteCommand_run (self : Env) (edit : Edit)
  : M unit :=
  let valid_ranges :=
    get_view_regions self (py"unstaged_files")
      ++ get_view_regions self (py"merge_conflicts")
      ++ get_view_regions self (py"staged_files") in
  let lines :=
    get_lines_from_regions self (sel self) (Some valid_ranges) in
  let file_paths := file_paths_of lines in
  emit (view_run_command (py"gs_open_file_on_remote")
          [ (py"fpath", AStrs file_paths) ]).

Definition GsStatusStageAllFilesCommand_run (self : Env) (edit : Edit)
  : M unit :=
  emit (GitCommand add_all_tracked_files) ;;
  emit refresh_gitsavvy.

Definition GsStatusStageAllFilesWithUntrackedCommand_run (self : Env)
    (edit : Edit) : M unit :=
  emit (GitCommand add_all_files) ;;
  emit refresh_gitsavvy.

Definition GsStatusUnstageAllFilesCommand_run (self : Env) (edit : Edit)
  : M unit :=
  emit (GitCommand unstage_all_files) ;;
  emit refresh_gitsavvy.

Definition GsStatusDiscardAllChangesCommand_run (self : Env) (edit : Edit)
  : M unit :=
  if destructive self
       (py"discard all unstaged changes, and delete all untracked files")
  then
    emit (GitCommand discard_all_unstaged) ;;
    emit refresh_gitsavvy
  else pass.

Definition GsStatusCommitCommand_run (self : Env) (edit : Edit) : M unit :=
  emit (window_run_command (py"gs_commit")
          [ (py"repo_path", AStr (repo_path self)) ]).

Definition GsStatusCommitUnstagedCommand_run (self : Env) (edit : Edit)
  : M unit :=
  emit (window_run_command (py"gs_commit")
          [ (py"repo_path", AStr (repo_path self));
            (py"include_unstaged", ABool true) ]).

Definition GsStatusAmendCommand_run (self : Env) (edit : Edit) : M unit :=
  emit (window_run_command (py"gs_commit")
          [ (py"repo_path", AStr (repo_path self));
            (py"amend", ABool true) ]).

Definition all_file_ranges (self : Env) : list Region :=
  get_view_regions self (py"unstaged_files")
    ++ get_view_regions self (py"untracked_files")
    ++ get_view_regions self (py"merge_conflicts")
    ++ get_view_regions self (py"staged_files").

Definition GsStatusIgnoreFileCommand_run (self : Env) (edit : Edit)
  : M unit :=
  let valid_ranges := all_file_ranges self in
  let lines :=
    get_lines_from_regions self (sel self) (Some valid_ranges) in
  let file_paths := file_paths_of lines in
  if Py.nonempty file_paths then
    for_each file_paths (fun fpath =>
      emit (GitCommand (add_ignore (Py.path_join (py"/") fpath)))) ;;
    emit (window_status_message (py"Successfully ignored files.")) ;;
    emit refresh_gitsavvy
  else pass.

Definition GsStatusIgnorePatternCommand_run (self : Env) (edit : Edit)
  : M unit :=
  let valid_ranges := all_file_ranges self in
  let lines :=
    get_lines_from_regions self (sel self) (Some valid_ranges) in
  let file_paths := file_paths_of lines in
  if Py.nonempty file_paths then
    pre_filled <- index0 file_paths ;;
    emit (window_run_command (py"gs_ignore_pattern")
            [ (py"pre_filled", AStr pre_filled) ])
  else pass.

(** [tuple(line[line.find("(") + 1:line.find(")")] for line in lines
    if line)] *)
Definition stash_ids_of (lines : list pystr) : list pystr :=
  map (fun line =>
         Py.slice line (Py.find line (py"(") + 1)
                  (Some (Py.find line (py")"))))
      (filter Py.truthy lines).

Definition GsStatusStashCommand_run (self : Env) (edit : Edit)
    (action : option pystr) : M unit :=
  let lines :=
    get_lines_from_regions self (sel self)
      (Some (get_view_regions self (py"stashes"))) in
  let ids := stash_ids_of lines in
  if (length ids =? 0)%nat then pass
  else if Py.opt_eqb action (Some (py"show")) then
    emit (window_run_command (py"gs_stash_show")
            [ (py"stash_ids", AStrs ids) ])
  else if (1 <? length ids)%nat then
    emit (window_status_message
            (py"You can only " ++ Py.str_of action
               ++ py" one stash at a time."))
  else if Py.opt_eqb action (Some (py"apply")) then
    stash_id <- index0 ids ;;
    emit (window_run_command (py"gs_stash_apply")
            [ (py"stash_id", AStr stash_id) ])
  else if Py.opt_eqb action (Some (py"pop")) then
    stash_id <- index0 ids ;;
    emit (window_run_command (py"gs_stash_pop")
            [ (py"stash_id", AStr stash_id) ])
  else if Py.opt_eqb action (Some (py"drop")) then
    stash_id <- index0 ids ;;
    emit (window_run_command (py"gs_stash_drop")
            [ (py"stash_id", AStr stash_id) ])
  else pass.

Definition GsStatusLaunchMergeToolCommand_run (self : Env) (edit : Edit)
  : M unit :=
  let valid_ranges := all_file_ranges self in
  let lines :=
    get_lines_from_regions self (sel self) (Some valid_ranges) in
  let file_paths := file_paths_of lines in
  if (1 <? length file_paths)%nat then
    emit (sublime_error_message
            (py"You can only launch merge tool for a single file at a time."))
  else
    defer (fpath <- index0 file_paths ;;
           emit (GitCommand (launch_tool_for_file fpath))).

(** [line[5:]] of every non-empty line under a cursor. *)
Definition selected_conflict_paths (self : Env) : list pystr :=
  let sels := sel self in
  let line_regions := map (view_line self) sels in
  flat_map (fun reg =>
              map (fun line => Py.slice line 5 None)
                  (filter Py.truthy (Py.split 10%N (view_substr self reg))))
           line_regions.

Fixpoint is_commit_version_deleted (path_ : pystr)
    (conflicts : list FileStatus) : bool :=
  match conflicts with
  | [] => false
  | conflict :: rest =>
      if Py.eqb (path conflict) path_
      then Py.eqb (working_status conflict) (py"D")
      else is_commit_version_deleted path_ rest
  end.

Definition GsStatusUseCommitVersionCommand_run_async (self : Env)
  : M unit :=
  let conflicts := interface_conflict_entries self in
  let paths := selected_conflict_paths self in
  for_each paths (fun path_ =>
    if is_commit_version_deleted path_ conflicts then
      emit (GitCommand (git [py"rm"; py"--"; path_]))
    else
      emit (GitCommand (git [py"checkout"; py"--theirs"; py"--"; path_])) ;;
      emit (GitCommand (stage_file path_ None))) ;;
  emit refresh_gitsavvy.

Definition GsStatusUseCommitVersionCommand_run (self : Env) (edit : Edit)
  : M unit :=
  defer (GsStatusUseCommitVersionCommand_run_async self).

Fixpoint is_base_version_deleted (path_ : pystr)
    (conflicts : list FileStatus) : bool :=
  match conflicts with
  | [] => false
  | conflict :: rest =>
      if Py.eqb (path conflict) path_
      then Py.eqb (index_status conflict) (py"D")
      else is_base_version_deleted path_ rest
  end.

Definition GsStatusUseBaseVersionCommand_run_async (self : Env)
  : M unit :=
  let conflicts := interface_conflict_entries self in
  let paths := selected_conflict_paths self in
  for_each paths (fun path_ =>
    if is_base_version_deleted path_ conflicts then
      emit (GitCommand (git [py"rm"; py"--"; path_]))
    else
      emit (GitCommand (git [py"checkout"; py"--ours"; py"--"; path_])) ;;
      emit (GitCommand (stage_file path_ None))) ;;
  emit refresh_gitsavvy.

Definition GsStatusUseBaseVersionCommand_run (self : Env) (edit : Edit)
  : M unit :=
  defer (GsStatusUseBaseVersionCommand_run_async self).

(** One constructor per [TextCommand] class of the module. *)
Inductive command :=
| GsStatusOpenFileCommand
| GsStatusDiffInlineCommand
| GsStatusDiffCommand
| GsStatusStageFileCommand
| GsStatusUnstageFileCommand
| GsStatusDiscardChangesToFileCommand
| GsStatusOpenFileOnRemoteCommand
| GsStatusStageAllFilesCommand
| GsStatusStageAllFilesWithUntrackedCommand
| GsStatusUnstageAllFilesCommand
| GsStatusDiscardAllChangesCommand
| GsStatusCommitCommand
| GsStatusCommitUnstagedCommand
| GsStatusAmendCommand
| GsStatusIgnoreFileCommand
| GsStatusIgnorePatternCommand
| GsStatusStashCommand
| GsStatusLaunchMergeToolCommand
| GsStatusUseCommitVersionCommand
| GsStatusUseBaseVersionCommand.

(** [c().run(edit)], or [c().run(edit, action=action)] for the stash
    command, the only one that takes an argument. *)
Definition run (c : command) (self : Env) (edit : Edit)
    (action : option pystr) : M unit :=
  match c with
  | GsStatusOpenFileCommand => GsStatusOpenFileCommand_run self edit
  | GsStatusDiffInlineCommand => GsStatusDiffInlineCommand_run self edit
  | GsStatusDiffCommand => GsStatusDiffCommand_run self edit
  | GsStatusStageFileCommand => GsStatusStageFileCommand_run self edit
  | GsStatusUnstageFileCommand => GsStatusUnstageFileCommand_run self edit
  | GsStatusDiscardChangesToFileCommand =>
      GsStatusDiscardChangesToFileCommand_run self edit
  | GsStatusOpenFileOnRemoteCommand =>
      GsStatusOpenFileOnRemoteCommand_run self edit
  | GsStatusStageAllFilesCommand =>
      GsStatusStageAllFilesCommand_run self edit
  | GsStatusStageAllFilesWithUntrackedCommand =>
      GsStatusStageAllFilesWithUntrackedCommand_run self edit
  | GsStatusUnstageAllFilesCommand =>
      GsStatusUnstageAllFilesCommand_run self edit
  | GsStatusDiscardAllChangesCommand =>
      GsStatusDiscardAllChangesCommand_run self edit
  | GsStatusCommitCommand => GsStatusCommitCommand_run self edit
  | GsStatusCommitUnstagedCommand =>
      GsStatusCommitUnstagedCommand_run self edit
  | GsStatusAmendCommand => GsStatusAmendCommand_run self edit
  | GsStatusIgnoreFileCommand => GsStatusIgnoreFileCommand_run self edit
  | GsStatusIgnorePatternCommand =>
      GsStatusIgnorePatternCommand_run self edit
  | GsStatusStashCommand => GsStatusStashCommand_run self edit action
  | GsStatusLaunchMergeToolCommand =>
      GsStatusLaunchMergeToolCommand_run self edit
  | GsStatusUseCommitVersionCommand =>
      GsStatusUseCommitVersionCommand_run self edit
  | GsStatusUseBaseVersionCommand =>
      GsStatusUseBaseVersionCommand_run self edit
  end.

Definition commands : list command :=
  [ GsStatusOpenFileCommand; GsStatusDiffInlineCommand;
    GsStatusDiffCommand; GsStatusStageFileCommand;
    GsStatusUnstageFileCommand; GsStatusDiscardChangesToFileCommand;
    GsStatusOpenFileOnRemoteCommand; GsStatusStageAllFilesCommand;
    GsStatusStageAllFilesWithUntrackedCommand;
    GsStatusUnstageAllFilesCommand; GsStatusDiscardAllChangesCommand;
    GsStatusCommitCommand; GsStatusCommitUnstagedCommand;
    GsStatusAmendCommand; GsStatusIgnoreFileCommand;
    GsStatusIgnorePatternCommand; GsStatusStashCommand;
    GsStatusLaunchMergeToolCommand; GsStatusUseCommitVersionCommand;
    GsStatusUseBaseVersionCommand ].

(** *** Rows of the dashboard *)

(** The line that [render_staged_files] formats for one entry. *)
Definition staged_line (self : StatusInterface) (f : FileStatus) : pystr :=
  py"  " ++ format_modification_time self (modified f) ++ py" "
    ++ (if Py.eqb (index_status f) (py"D") then py"-" else py" ")
    ++ py" " ++ get_path f.

(** The line that [render_unstaged_files] formats for one entry. *)
Definition unstaged_line (self : StatusInterface) (f : FileStatus)
  : pystr :=
  py"  " ++ format_modification_time self (modified f) ++ py" "
    ++ (if Py.eqb (working_status f) (py"D") then py"-" else py" ")
    ++ py" " ++ path f.

(** The line that [render_untracked_files] formats for one entry. *)
Definition untracked_line (self : StatusInterface) (f : FileStatus)
  : pystr :=
  py"  " ++ format_modification_time self (modified f) ++ py"   "
    ++ path f.

(** The line that [render_merge_conflicts] formats for one entry. *)
Definition conflict_line (f : FileStatus) : pystr :=
  py"    " ++ path f.

(** A row of [GitCommand.get_stashes]. *)
Record Stash := {
  id : pystr;
  description : pystr
}.

(** The line that [render_stashes] formats for one stash:
    ["    ({}) {}".format(stash.id, stash.description)]. *)
Definition stash_line (stash : Stash) : pystr :=
  py"    (" ++ id stash ++ py") " ++ description stash.

Definition template_stashes_format (body : pystr) : pystr :=
  Py.nl ++ py"      STASHES:" ++ Py.nl ++ py"    " ++ body
    ++ Py.nl ++ py"    ".

(** [render_stashes], on the list that [self.get_stashes()] returns. *)
Definition render_stashes (stash_list : list Stash) : pystr :=
  if negb (Py.nonempty stash_list) then []
  else template_stashes_format
         (Py.join Py.nl (map stash_line stash_list)).

(** An environment whose selection holds the given lines, in every
    region. *)
Definition env_with_lines (lines : list pystr) : Env :=
  {| repo_path := py"/repo";
     sel := [ {| region_a := 0; region_b := 0 |} ];
     get_view_regions := fun _ => [ {| region_a := 0; region_b := 100 |} ];
     get_lines_from_regions := fun _ _ => lines;
     get_syntax_for_file := fun _ => [];
     destructive := fun _ => true;
     view_line := fun r => r;
     view_substr := fun _ => Py.join Py.nl lines;
     interface_conflict_entries := [] |}.

(** An entry with the given path and statuses, never modified. *)
Definition entry (path_ index_status_ working_status_ : pystr)
  : FileStatus :=
  {| path := path_;
     path_alt := None;
     index_status := index_status_;
     working_status := working_status_;
     modified := Py.PInt 0 |}.

(** An interface with the given staged and unstaged entries, ages
    hidden. *)
Definition interface_with (staged unstaged : list FileStatus)
  : StatusInterface :=
  {| staged_entries := staged;
     unstaged_entries := unstaged;
     untracked_entries := [];
     conflict_entries := [];
     show_file_change_age := None;
     now := 0 |}.

(** A staged rename of [old] to [new]. *)
Definition renamed (old new : pystr) : FileStatus :=
  {| path := new;
     path_alt := Some old;
     index_status := py"R";
     working_status := py" ";
     modified := Py.PInt 0 |}.

(** The environment [self] with every destructive action declined. *)
Definition declining (self : Env) : Env :=
  {| repo_path := repo_path self;
     sel := sel self;
     get_view_regions := get_view_regions self;
     get_lines_from_regions := get_lines_from_regions self;
     get_syntax_for_file := get_syntax_for_file self;
     destructive := fun _ => false;
     view_line := view_line self;
     view_substr := view_substr self;
     interface_conflict_entries := interface_conflict_entries self |}.


(** The class attribute [template_help] up to its placeholder
    [{conflicts_bindings}], line by line; the literal opens with a
    newline. *)
Definition template_help_head : pystr :=
  Py.nl ++ Py.join Py.nl
    [
      py"      ###################                   ###############";
      py"      ## SELECTED FILE ##                   ## ALL FILES ##";
      py"      ###################                   ###############";
      py"";
      py"      [o] open file                         [a] stage all unstaged files";
      py"      [s] stage file                        [A] stage all unstaged and untracked files";
      py"      [u] unstage file                      [U] unstage all staged files";
      py"      [d] discard changes to file           [D] discard all unstaged changes";
      py"      [h] open file on remote";
      py"      [M] launch external merge tool";
      py"";
      py"      [l] diff file inline                  [f] diff all files";
      py"      [e] diff file                         [F] diff all cached files";
      py"";
      py"      #############                         #############";
      py"      ## ACTIONS ##                         ## STASHES ##";
      py"      #############                         #############";
      py"";
      py"      [c] commit                            [t][a] apply stash";
      py"      [C] commit, including unstaged        [t][p] pop stash";
      py"      [m] amend previous commit             [t][s] show stash";
      py"      [p] push current branch               [t][c] create stash";
      py"                                            [t][u] create stash including untracked files";
      py"      [i] ignore file                       [t][g] create stash of staged changes only";
      py"      [I] ignore pattern                    [t][d] drop stash";
      py"";
      py"      [B] abort merge";
      py"";
      py"      ###########";
      py"      ## OTHER ##";
      py"      ###########";
      py"";
      py"      [r]         refresh status";
      py"      [?]         toggle this help menu";
      py"      [tab]       transition to next dashboard";
      py"      [SHIFT-tab] transition to previous dashboard";
      py"      [.]         move cursor to next file";
      py"      [,]         move cursor to previous file"
    ] ++ Py.nl ++ py"    ".

(** [self.template_help.format(conflicts_bindings=...)] *)
Definition template_help_format (conflicts_bindings : pystr) : pystr :=
  template_help_head ++ conflicts_bindings ++ Py.nl ++ py"    -"
    ++ Py.nl ++ py"    ".

(** [render_help]; [help_hidden] is the truth value of the view setting
    [git_savvy.help_hidden]. *)
Definition render_help (self : StatusInterface) (help_hidden : bool)
  : pystr :=
  if help_hidden then []
  else template_help_format (render_conflicts_bindings self).

(** [title], on [self.repo_path]. *)
Definition title (repo_path_ : pystr) : pystr :=
  py"STATUS: " ++ Py.basename repo_path_.

End Status.

(** ** The commands of the two modules together *)

Module Dashboard.

Import Host.

(** A [TextCommand] class of [branch.py] or of [status.py]. *)
Inductive text_command :=
| BranchCommand (c : Branch.command)
| StatusCommand (c : Status.command).

Definition run (c : text_command) (self : Env) (edit : Edit)
    (action : option pystr) : M unit :=
  match c with
  | BranchCommand b => Branch.run b self edit
  | StatusCommand s => Status.run s self edit action
  end.

Definition text_commands : list text_command :=
  map BranchCommand Branch.commands ++ map StatusCommand Status.commands.

(** Whether the body of the class's [run] method in the source is the
    single statement [pass]. *)
Definition body_is_pass (c : text_command) : bool :=
  match c with
  | BranchCommand _ => true
  | StatusCommand _ => false
  end.

(** A command performs no operation when, whatever it is run on, it makes
    no call and returns [None]. *)
Definition no_operation (c : text_command) : Prop :=
  forall self edit action, run c self edit action = pass.

(** Whether every call of a log stays within the host editor. *)
Definition editor_only_log (log : list call) : bool :=
  forallb editor_call log.

(** The commands whose [run] method calls no [GitCommand] method,
    directly or in a callback it schedules. *)
Definition calls_editor_only (c : text_command) : bool :=
  match c with
  | BranchCommand _ => true
  | StatusCommand s =>
      match s with
      | Status.GsStatusOpenFileCommand
      | Status.GsStatusDiffInlineCommand
      | Status.GsStatusDiffCommand
      | Status.GsStatusOpenFileOnRemoteCommand
      | Status.GsStatusCommitCommand
      | Status.GsStatusCommitUnstagedCommand
      | Status.GsStatusAmendCommand
      | Status.GsStatusIgnorePatternCommand
      | Status.GsStatusStashCommand => true
      | _ => false
      end
  end.

(** A dashboard with one file line under the cursor, in every region. *)
Definition sample_env : Env :=
  {| repo_path := py"/repo";
     sel := [ {| region_a := 0; region_b := 0 |} ];
     get_view_regions := fun _ => [ {| region_a := 0; region_b := 100 |} ];
     get_lines_from_regions := fun _ _ => [ py"        a.txt" ];
     get_syntax_for_file := fun _ => py"Packages/Text/Plain text.tmLanguage";
     destructive := fun _ => true;
     view_line := fun r => r;
     view_substr := fun _ => py"     a.txt";
     interface_conflict_entries := [] |}.

(** A dashboard with nothing under the cursor. *)
Definition empty_env : Env :=
  {| repo_path := py"/repo";
     sel := [];
     get_view_regions := fun _ => [];
     get_lines_from_regions := fun _ _ => [];
     get_syntax_for_file := fun _ => [];
     destructive := fun _ => true;
     view_line := fun r => r;
     view_substr := fun _ => [];
     interface_conflict_entries := [] |}.

Definition sample_edit : Edit := {| edit_token := 1 |}.

End Dashboard.

(** * Properties *)

(** ** The monad of calls *)

Section MonadFacts.

Import Host.

Lemma bind_ret_l {A B} (x : A) (k : A -> M B) : bind (ret x) k = k x.
Proof. unfold bind, ret. destruct (k x) as [log r]. reflexivity. Qed.

Lemma bind_emit {B} (c : call) (k : unit -> M B) :
  bind (emit c) k = (c :: fst (k tt), snd (k tt)).
Proof. unfold bind, emit. destruct (k tt) as [log r]. reflexivity. Qed.

Lemma for_each_emit {A} (f : A -> call) (xs : list A) :
  for_each xs (fun x => emit (f x)) = (map f xs, inr tt).
Proof.
  induction xs as [|x xs IH]; cbn [for_each].
  - reflexivity.
  - rewrite bind_emit, IH. reflexivity.
Qed.

Lemma bind_log {A B} (log : list call) (x : A) (k : A -> M B) :
  bind (log, inr x) k = (log ++ fst (k x), snd (k x)).
Proof. unfold bind. destruct (k x) as [log' r]. reflexivity. Qed.

Lemma exec_nil {World A} (handle : call -> World -> World)
    (r : exn + A) (w : World) :
  exec handle (([] : list call), r) w = w.
Proof. reflexivity. Qed.

End MonadFacts.

(** ** The branch commands do nothing *)

(** C1. Each of the eleven action commands of the branch dashboard, run
    with any edit token on any view and repository, makes no call to the
    host editor or to git and returns [None]; hence, however the host and
    git act on the state of the world, that state is left as it was. *)
Theorem branch_commands_do_nothing :
  length Branch.commands = 11 /\
  NoDup Branch.commands /\
  (forall c : Branch.command, In c Branch.commands) /\
  forall (c : Branch.command) (self : Host.Env) (edit : Host.Edit),
    Branch.run c self edit = (([] : list Host.call), inr tt) /\
    forall (World : Type) (handle : Host.call -> World -> World) (w : World),
      Host.exec handle (Branch.run c self edit) w = w.
Proof.
  split; [reflexivity|].
  split.
  { unfold Branch.commands.
    repeat (constructor; [simpl; intuition discriminate|]). constructor. }
  split.
  { intros c. destruct c; simpl; intuition. }
  intros c self edit.
  assert (E : Branch.run c self edit = (([] : list Host.call), inr tt))
    by (destruct c; reflexivity).
  split; [exact E|].
  intros World handle w. rewrite E. apply exec_nil.
Qed.

(** ** Which commands are placeholders *)

Section Placeholders.

Import Host Dashboard.

(** Every status command makes a call when a file line is under the
    cursor. *)
Lemma status_commands_operate (s : Status.command) :
  Status.run s sample_env sample_edit (Some (py"apply")) <> pass.
Proof. destruct s; vm_compute; discriminate. Qed.

Lemma body_is_pass_spec (c : text_command) :
  body_is_pass c = true <-> no_operation c.
Proof.
  split.
  - destruct c as [b|s]; [|discriminate].
    intros _ self edit action. destruct b; reflexivity.
  - destruct c as [b|s]; [reflexivity|].
    intros H. exfalso.
    exact (status_commands_operate s (H sample_env sample_edit _)).
Qed.

Lemma text_commands_complete (c : text_command) : In c text_commands.
Proof. destruct c as [b|s]; [destruct b | destruct s]; simpl; intuition. Qed.

Lemma text_commands_NoDup : NoDup text_commands.
Proof.
  unfold text_commands, Branch.commands, Status.commands. simpl.
  repeat (constructor; [simpl; intuition discriminate|]). constructor.
Qed.

Lemma filter_NoDup {A} (f : A -> bool) (l : list A) :
  NoDup l -> NoDup (filter f l).
Proof.
  induction 1 as [|x l Hx Hl IH]; simpl; [constructor|].
  destruct (f x); [constructor|]; auto.
  rewrite filter_In. tauto.
Qed.

End Placeholders.

(** C2, as stated, fails.  The commands that perform no operation are
    eleven of the thirty-one [TextCommand] classes of the two modules:
    not more than half. *)
Lemma placeholders_are_a_minority :
  exists placeholders : list Dashboard.text_command,
    NoDup placeholders /\
    (forall c, In c placeholders <-> Dashboard.no_operation c) /\
    NoDup Dashboard.text_commands /\
    (forall c, In c Dashboard.text_commands) /\
    length placeholders = 11 /\
    length Dashboard.text_commands = 31 /\
    2 * length placeholders <= length Dashboard.text_commands.
Proof.
  exists (filter Dashboard.body_is_pass Dashboard.text_commands).
  split; [apply filter_NoDup, text_commands_NoDup|].
  split.
  { intros c. rewrite filter_In, <- body_is_pass_spec.
    pose proof (text_commands_complete c). tauto. }
  split; [apply text_commands_NoDup|].
  split; [apply text_commands_complete|].
  split; [reflexivity|].
  split; [reflexivity|].
  vm_compute. repeat constructor.
Qed.

(** C2, amended.  A [TextCommand] class of the two modules has a [run]
    method that performs no operation exactly when it is one of the
    eleven classes of the branch module, whose body is [pass]; each of
    the twenty classes of the status module makes a call for some
    selection.  The placeholders are 11 of 31. *)
Theorem placeholders_are_the_branch_commands :
  (forall c : Dashboard.text_command,
     Dashboard.no_operation c <-> exists b, c = Dashboard.BranchCommand b) /\
  (forall s : Status.command,
     exists self edit action,
       fst (Dashboard.run (Dashboard.StatusCommand s) self edit action)
       <> []) /\
  length (filter Dashboard.body_is_pass Dashboard.text_commands) = 11 /\
  length Dashboard.text_commands = 31.
Proof.
  split.
  { intros c. rewrite <- body_is_pass_spec. destruct c as [b|s]; simpl.
    - split; [eauto|reflexivity].
    - split; [discriminate|]. intros [b Hb]. discriminate. }
  split.
  { intros s.
    exists Dashboard.sample_env, Dashboard.sample_edit, (Some (py"apply")).
    destruct s; vm_compute; discriminate. }
  split; reflexivity.
Qed.

(** ** Which commands reach beyond the editor *)

Section EditorOnly.

Import Host Dashboard.

Lemma editor_call_async (log : list call) (e : option exn) :
  editor_call (set_timeout_async (log, e)) = editor_only_log log.
Proof.
  unfold editor_only_log. simpl.
  induction log as [|c log IH]; [reflexivity|].
  simpl. rewrite <- IH. reflexivity.
Qed.

Lemma editor_only_map {A} (f : A -> call) (xs : list A) :
  (forall x, editor_call (f x) = true) ->
  editor_only_log (map f xs) = true.
Proof.
  intros H. unfold editor_only_log.
  induction xs as [|x xs IH]; simpl; [reflexivity|].
  rewrite H, IH. reflexivity.
Qed.

Lemma editor_only_app (l1 l2 : list call) :
  editor_only_log (l1 ++ l2) = editor_only_log l1 && editor_only_log l2.
Proof. apply forallb_app. Qed.

Lemma editor_only_defer (m : M unit) :
  editor_only_log (fst (defer m)) = editor_only_log (fst m).
Proof.
  unfold defer, emit. cbn [fst]. unfold editor_only_log at 1.
  cbn [forallb]. rewrite editor_call_async. apply andb_true_r.
Qed.

Lemma load_inline_diff_windows_editor_only self nc c :
  editor_only_log (fst (Status.load_inline_diff_windows self nc c)) = true.
Proof.
  unfold Status.load_inline_diff_windows.
  rewrite for_each_emit, bind_log, for_each_emit. cbn [fst].
  rewrite editor_only_app, !editor_only_map; auto.
Qed.

Lemma load_diff_windows_editor_only self nc c :
  editor_only_log (fst (Status.load_diff_windows self nc c)) = true.
Proof.
  unfold Status.load_diff_windows.
  rewrite for_each_emit, bind_log, for_each_emit. cbn [fst].
  rewrite editor_only_app, !editor_only_map; auto.
Qed.

Lemma stash_editor_only self edit action :
  editor_only_log (fst (Status.GsStatusStashCommand_run self edit action))
  = true.
Proof.
  unfold Status.GsStatusStashCommand_run.
  destruct (Status.stash_ids_of _) as [|i [|j rest]]; cbn.
  - reflexivity.
  - repeat match goal with
           | |- context [if ?b then _ else _] => destruct b; cbn
           end; reflexivity.
  - destruct (Py.opt_eqb action _); reflexivity.
Qed.

Lemma calls_editor_only_sound (c : text_command) :
  calls_editor_only c = true ->
  forall self edit action,
    editor_only_log (fst (run c self edit action)) = true.
Proof.
  destruct c as [b|s].
  - intros _ self edit action. destruct b; reflexivity.
  - destruct s; try discriminate; intros _ self edit action; cbn [run Status.run].
    + unfold Status.GsStatusOpenFileCommand_run.
      rewrite for_each_emit. apply editor_only_map. reflexivity.
    + unfold Status.GsStatusDiffInlineCommand_run.
      rewrite editor_only_defer. apply load_inline_diff_windows_editor_only.
    + unfold Status.GsStatusDiffCommand_run.
      rewrite editor_only_defer. apply load_diff_windows_editor_only.
    + reflexivity.
    + reflexivity.
    + reflexivity.
    + reflexivity.
    + unfold Status.GsStatusIgnorePatternCommand_run.
      destruct (Status.file_paths_of _); reflexivity.
    + apply stash_editor_only.
Qed.

Lemma calls_editor_only_complete (c : text_command) :
  calls_editor_only c = false ->
  editor_only_log (fst (run c sample_env sample_edit None)) = false.
Proof.
  destruct c as [b|s]; [discriminate|].
  destruct s; try discriminate; intros _; vm_compute; reflexivity.
Qed.

End EditorOnly.

(** C7, as stated, fails.  With one file line under the cursor,
    [GsStatusIgnoreFileCommand.run] calls [GitCommand.add_ignore], which
    writes to the [.gitignore] of the repository: an effect outside the
    host editor. *)
Lemma ignore_file_reaches_git :
  Dashboard.run (Dashboard.StatusCommand Status.GsStatusIgnoreFileCommand)
    Dashboard.sample_env Dashboard.sample_edit None
  = ([ Host.GitCommand (Host.add_ignore (py"/a.txt"));
       Host.window_status_message (py"Successfully ignored files.");
       Host.refresh_gitsavvy ], inr tt)
  /\ Dashboard.editor_only_log
       (fst (Dashboard.run
               (Dashboard.StatusCommand Status.GsStatusIgnoreFileCommand)
               Dashboard.sample_env Dashboard.sample_edit None))
     = false.
Proof. split; vm_compute; reflexivity. Qed.

(** C7, amended.  The commands that, on every view and repository, only
    call the host editor (its windows, views, messages, command dispatch
    and timers) are the eleven branch commands, which call nothing, and
    the status commands that open a file, open a diff, open a file on the
    remote, open a commit view, prompt for an ignore pattern or dispatch a
    stash command.  Every other status command, for some selection, calls
    a [GitCommand] method acting on the repository. *)
Theorem editor_only_commands :
  forall c : Dashboard.text_command,
    Dashboard.calls_editor_only c = true <->
    (forall self edit action,
       Dashboard.editor_only_log (fst (Dashboard.run c self edit action))
       = true).
Proof.
  intros c. split.
  - apply calls_editor_only_sound.
  - intros H. destruct (Dashboard.calls_editor_only c) eqn:E; [reflexivity|].
    rewrite <- (H Dashboard.sample_env Dashboard.sample_edit None).
    symmetry. apply calls_editor_only_complete, E.
Qed.

(** ** Staging and unstaging by region *)

Section StageUnstage.

Import Host.

Lemma staged_by_app (l1 l2 : list call) :
  staged_by (l1 ++ l2) = staged_by l1 ++ staged_by l2.
Proof.
  induction l1 as [|c l1 IH]; [reflexivity|].
  destruct c as [| | | | | | |g]; simpl; auto.
  destruct g; simpl; auto. rewrite IH. reflexivity.
Qed.

Lemma unstaged_by_app (l1 l2 : list call) :
  unstaged_by (l1 ++ l2) = unstaged_by l1 ++ unstaged_by l2.
Proof.
  induction l1 as [|c l1 IH]; [reflexivity|].
  destruct c as [| | | | | | |g]; simpl; auto.
  destruct g; simpl; auto. rewrite IH. reflexivity.
Qed.

Lemma staged_by_stage (force : option bool) (paths : list pystr) :
  staged_by (map (fun p => GitCommand (stage_file p force)) paths) = paths.
Proof. induction paths; simpl; congruence. Qed.

Lemma unstaged_by_stage (force : option bool) (paths : list pystr) :
  unstaged_by (map (fun p => GitCommand (stage_file p force)) paths) = [].
Proof. induction paths; simpl; congruence. Qed.

Lemma unstaged_by_unstage (paths : list pystr) :
  unstaged_by (map (fun p => GitCommand (unstage_file p)) paths) = paths.
Proof. induction paths; simpl; congruence. Qed.

Lemma staged_by_unstage (paths : list pystr) :
  staged_by (map (fun p => GitCommand (unstage_file p)) paths) = [].
Proof. induction paths; simpl; congruence. Qed.

Lemma stage_file_run self edit :
  let paths :=
    Status.file_paths_of
      (get_lines_from_regions self (sel self)
         (Some (get_view_regions self (py"unstaged_files")
                  ++ get_view_regions self (py"untracked_files")
                  ++ get_view_regions self (py"merge_conflicts")))) in
  Status.GsStatusStageFileCommand_run self edit =
  if Py.nonempty paths
  then (map (fun p => GitCommand (stage_file p (Some false))) paths
          ++ [ window_status_message (py"Staged files successfully.");
               refresh_gitsavvy ], inr tt)
  else ([], inr tt).
Proof.
  intros paths. unfold Status.GsStatusStageFileCommand_run. fold paths.
  destruct (Py.nonempty paths); [|reflexivity].
  rewrite for_each_emit, bind_log. reflexivity.
Qed.

Lemma unstage_file_run self edit :
  let paths :=
    Status.file_paths_of
      (get_lines_from_regions self (sel self)
         (Some (get_view_regions self (py"staged_files")))) in
  Status.GsStatusUnstageFileCommand_run self edit =
  if Py.nonempty paths
  then (map (fun p => GitCommand (unstage_file p)) paths
          ++ [ window_status_message (py"Unstaged files successfully.");
               refresh_gitsavvy ], inr tt)
  else ([], inr tt).
Proof.
  intros paths. unfold Status.GsStatusUnstageFileCommand_run. fold paths.
  destruct (Py.nonempty paths); [|reflexivity].
  rewrite for_each_emit, bind_log. reflexivity.
Qed.

End StageUnstage.

(** C3. Let the stage lines be the lines of the selection that
    [get_lines_from_regions] returns within the [unstaged_files],
    [untracked_files] and [merge_conflicts] regions, and the unstage lines
    those it returns within the [staged_files] region.
    [GsStatusStageFileCommand.run] calls [stage_file] on [line[7:].strip()]
    of every non-empty stage line, in order, and on nothing else, then shows
    a status message and refreshes; [GsStatusUnstageFileCommand.run] does
    the same with [unstage_file] on the unstage lines.  Neither command
    calls the other's git method, and when there is no such line the command
    makes no call at all. *)
Theorem stage_and_unstage_follow_regions :
  forall (self : Host.Env) (edit : Host.Edit),
    let stage_lines :=
      Host.get_lines_from_regions self (Host.sel self)
        (Some (Host.get_view_regions self (py"unstaged_files")
                 ++ Host.get_view_regions self (py"untracked_files")
                 ++ Host.get_view_regions self (py"merge_conflicts"))) in
    let unstage_lines :=
      Host.get_lines_from_regions self (Host.sel self)
        (Some (Host.get_view_regions self (py"staged_files"))) in
    let path_of := fun line => Py.strip (Py.slice line 7 None) in
    let stage_paths := map path_of (filter Py.truthy stage_lines) in
    let unstage_paths := map path_of (filter Py.truthy unstage_lines) in
    let stage := Status.GsStatusStageFileCommand_run self edit in
    let unstage := Status.GsStatusUnstageFileCommand_run self edit in
    snd stage = inr tt /\ snd unstage = inr tt /\
    Host.staged_by (fst stage) = stage_paths /\
    Host.unstaged_by (fst stage) = [] /\
    Host.unstaged_by (fst unstage) = unstage_paths /\
    Host.staged_by (fst unstage) = [] /\
    fst stage =
      match stage_paths with
      | [] => []
      | _ :: _ =>
          map (fun p => Host.GitCommand (Host.stage_file p (Some false)))
              stage_paths
          ++ [ Host.window_status_message (py"Staged files successfully.");
               Host.refresh_gitsavvy ]
      end /\
    fst unstage =
      match unstage_paths with
      | [] => []
      | _ :: _ =>
          map (fun p => Host.GitCommand (Host.unstage_file p)) unstage_paths
          ++ [ Host.window_status_message
                 (py"Unstaged files successfully.");
               Host.refresh_gitsavvy ]
      end.
Proof.
  intros self edit stage_lines unstage_lines path_of stage_paths
    unstage_paths stage unstage.
  pose proof (stage_file_run self edit) as Hs.
  pose proof (unstage_file_run self edit) as Hu.
  cbv zeta in Hs, Hu. unfold Status.file_paths_of in Hs, Hu.
  fold stage_lines path_of stage_paths stage in Hs.
  fold unstage_lines path_of unstage_paths unstage in Hu.
  rewrite Hs, Hu.
  destruct stage_paths as [|p ps], unstage_paths as [|q qs];
    cbn [Py.nonempty fst snd];
    rewrite ?staged_by_app, ?unstaged_by_app, ?staged_by_stage,
      ?unstaged_by_stage, ?staged_by_unstage, ?unstaged_by_unstage,
      ?app_nil_r;
    repeat split; reflexivity.
Qed.

(** ** Stash commands and the merge tool *)

(** C9. Let [ids] be the stash ids read off the non-empty lines of the
    selection within the [stashes] region.  With no id,
    [GsStatusStashCommand.run] makes no call, whatever the action.  With
    action ["show"] and at least one id it runs [gs_stash_show] on all of
    them.  With any other action and more than one id it only shows a
    status message.  With exactly one id it runs [gs_stash_apply],
    [gs_stash_pop] or [gs_stash_drop] on that id for the actions ["apply"],
    ["pop"] and ["drop"], and makes no call for any other action.  It
    never raises. *)
Theorem stash_command_by_selection :
  forall (self : Host.Env) (edit : Host.Edit) (action : option pystr),
    let ids :=
      Status.stash_ids_of
        (Host.get_lines_from_regions self (Host.sel self)
           (Some (Host.get_view_regions self (py"stashes")))) in
    let show := fun ids =>
      [ Host.window_run_command (py"gs_stash_show")
          [ (py"stash_ids", Host.AStrs ids) ] ] in
    let dispatch := fun name id =>
      [ Host.window_run_command name [ (py"stash_id", Host.AStr id) ] ] in
    Status.GsStatusStashCommand_run self edit action =
    (match ids with
     | [] => []
     | [id] =>
         if Py.opt_eqb action (Some (py"show")) then show [id]
         else if Py.opt_eqb action (Some (py"apply"))
           then dispatch (py"gs_stash_apply") id
         else if Py.opt_eqb action (Some (py"pop"))
           then dispatch (py"gs_stash_pop") id
         else if Py.opt_eqb action (Some (py"drop"))
           then dispatch (py"gs_stash_drop") id
         else []
     | _ :: _ :: _ =>
         if Py.opt_eqb action (Some (py"show")) then show ids
         else [ Host.window_status_message
                  (py"You can only " ++ Py.str_of action
                     ++ py" one stash at a time.") ]
     end, inr tt).
Proof.
  intros self edit action ids show dispatch.
  unfold Status.GsStatusStashCommand_run. fold ids.
  destruct ids as [|i [|j rest]]; cbn [length Nat.eqb Nat.ltb Nat.leb].
  - reflexivity.
  - destruct (Py.opt_eqb action (Some (py"show"))); [reflexivity|].
    destruct (Py.opt_eqb action (Some (py"apply"))); [reflexivity|].
    destruct (Py.opt_eqb action (Some (py"pop"))); [reflexivity|].
    destruct (Py.opt_eqb action (Some (py"drop"))); reflexivity.
  - destruct (Py.opt_eqb action (Some (py"show"))); reflexivity.
Qed.

(** C10. Let [file_paths] be the paths read off the non-empty lines of the
    selection within the four file regions.
    [GsStatusLaunchMergeToolCommand.run] shows an error message, and
    schedules nothing, only when there is more than one path.  With no path
    it still schedules the callback, and the callback, indexing the empty
    tuple at 0, raises [IndexError] before any call; with exactly one path
    the callback launches the merge tool for it.  A selection with no path
    exists, so the [IndexError] is reachable. *)
Theorem launch_merge_tool_by_selection :
  (exists (self : Host.Env) (edit : Host.Edit),
     Status.GsStatusLaunchMergeToolCommand_run self edit =
     ([ Host.set_timeout_async ([], Some Host.IndexError) ], inr tt)) /\
  forall (self : Host.Env) (edit : Host.Edit),
    let file_paths :=
      map (fun line => Py.strip (Py.slice line 7 None))
          (filter Py.truthy
             (Host.get_lines_from_regions self (Host.sel self)
                (Some (Host.get_view_regions self (py"unstaged_files")
                         ++ Host.get_view_regions self (py"untracked_files")
                         ++ Host.get_view_regions self (py"merge_conflicts")
                         ++ Host.get_view_regions self (py"staged_files")))))
    in
    Status.GsStatusLaunchMergeToolCommand_run self edit =
    (match file_paths with
     | [] => [ Host.set_timeout_async ([], Some Host.IndexError) ]
     | [fpath] =>
         [ Host.set_timeout_async
             ([ Host.GitCommand (Host.launch_tool_for_file fpath) ], None) ]
     | _ :: _ :: _ =>
         [ Host.sublime_error_message
             (py"You can only launch merge tool for a single file at a time.") ]
     end, inr tt).
Proof.
  split.
  { exists Dashboard.empty_env, Dashboard.sample_edit. reflexivity. }
  intros self edit file_paths.
  unfold Status.GsStatusLaunchMergeToolCommand_run, Status.all_file_ranges,
    Status.file_paths_of.
  fold file_paths.
  destruct file_paths as [|p [|q rest]]; reflexivity.
Qed.

(** ** Rendering the status dashboard *)

Section StatusRendering.

Import Host Status.

Lemma nonempty_false {A} (l : list A) : Py.nonempty l = false <-> l = [].
Proof. destruct l; simpl; split; congruence. Qed.

Lemma conflicts_keybindings_nonempty : conflicts_keybindings <> [].
Proof. vm_compute. discriminate. Qed.

Lemma clean_message_found :
  Py.contains (Py.nl ++ py"    Your working directory is clean." ++ Py.nl)
              (py"Your working directory is clean.") = true.
Proof. vm_compute. reflexivity. Qed.

Lemma pad_left_length (width : nat) (s : pystr) :
  width <= length (Py.pad_left width s).
Proof.
  unfold Py.pad_left, pystr, Py.char.
  rewrite length_app, repeat_length. lia.
Qed.

End StatusRendering.

(** C4. In every state of the status interface, each of the partials
    [staged_files], [unstaged_files], [untracked_files] and
    [merge_conflicts] renders the empty string exactly when its list of
    entries is empty; the partial [conflicts_bindings] renders a non-empty
    string exactly when there are conflict entries; and the text "Your
    working directory is clean." occurs in what [no_status_message] renders
    exactly when the four lists are all empty. *)
Theorem sections_render_iff_entries :
  forall self : Status.StatusInterface,
    (Status.render_staged_files self = []
     <-> Status.staged_entries self = []) /\
    (Status.render_unstaged_files self = []
     <-> Status.unstaged_entries self = []) /\
    (Status.render_untracked_files self = []
     <-> Status.untracked_entries self = []) /\
    (Status.render_merge_conflicts self = []
     <-> Status.conflict_entries self = []) /\
    (Status.render_conflicts_bindings self <> []
     <-> Status.conflict_entries self <> []) /\
    (Py.contains (Status.render_no_status_message self)
                 (py"Your working directory is clean.") = true
     <-> Status.staged_entries self = []
         /\ Status.unstaged_entries self = []
         /\ Status.untracked_entries self = []
         /\ Status.conflict_entries self = []).
Proof.
  intros [staged unstaged untracked conflicts age now_].
  unfold Status.render_staged_files, Status.render_unstaged_files,
    Status.render_untracked_files, Status.render_merge_conflicts,
    Status.render_conflicts_bindings, Status.render_no_status_message.
  cbn [Status.staged_entries Status.unstaged_entries
       Status.untracked_entries Status.conflict_entries].
  repeat split.
  - destruct staged; [reflexivity | discriminate].
  - intros ->. reflexivity.
  - destruct unstaged; [reflexivity | discriminate].
  - intros ->. reflexivity.
  - destruct untracked; [reflexivity | discriminate].
  - intros ->. reflexivity.
  - destruct conflicts; [reflexivity | discriminate].
  - intros ->. reflexivity.
  - destruct conflicts; [intros H; now elim H | discriminate].
  - destruct conflicts; [intros H; now elim H|].
    intros _. apply conflicts_keybindings_nonempty.
  - destruct staged; [reflexivity | simpl; discriminate].
  - destruct staged; [|simpl; discriminate].
    destruct unstaged; [reflexivity | simpl; discriminate].
  - destruct staged; [|simpl; discriminate].
    destruct unstaged; [|simpl; discriminate].
    destruct untracked; [reflexivity | simpl; discriminate].
  - destruct staged; [|simpl; discriminate].
    destruct unstaged; [|simpl; discriminate].
    destruct untracked; [|simpl; discriminate].
    destruct conflicts; [reflexivity | simpl; discriminate].
  - intros (-> & -> & -> & ->). apply clean_message_found.
Qed.

(** ** The age of a change *)

(** C8. [format_modification_time] returns three spaces when the setting
    [show_file_change_age] is [None] or [ts == 0].  Otherwise, with
    [delta = now - ts], it returns [delta] formatted by ["{0:2.0f}"], at
    least two characters wide, followed by the letter of the first matching
    threshold: [s] if [delta < 60], else [m] if [delta / 60 < 60], else
    [h] if that quotient over 60 is below 60, else [d] if that quotient
    over 24 is below 8, else [w] if that quotient over 7 is below 4, else
    [M] if that quotient over 4 is below 12, else [Y] with that quotient
    over 12; the number printed is the quotient the threshold was tested
    on. *)
Theorem format_modification_time_by_threshold :
  (forall (self : Status.StatusInterface) (ts : Py.num),
     Status.format_modification_time self ts =
     match Status.show_file_change_age self with
     | None => py"   "
     | Some _ =>
         if Py.num_eq_int ts 0 then py"   "
         else Status.age_by_first_threshold
                (Py.int_sub (Status.now self) ts)
     end) /\
  (forall x : Py.num, 2 <= length (Py.format_2_0f x)).
Proof.
  split.
  - intros self ts. unfold Status.format_modification_time.
    destruct (Status.show_file_change_age self); [|reflexivity].
    destruct (Py.num_eq_int ts 0); [reflexivity|].
    unfold Status.age_by_first_threshold, Status.age_units.
    cbn [Status.first_matching_unit].
    repeat match goal with
           | |- (if ?b then _ else _) = _ => destruct b; [reflexivity|]
           end.
    reflexivity.
  - intros x. apply pad_left_length.
Qed.

(** ** Rendering the branch dashboard *)

Section BranchRendering.

Import Branch.

Lemma Forall2_map_self {A B} (P : A -> B -> Prop) (f : A -> B)
    (l : list A) :
  (forall x, P x (f x)) -> Forall2 P l (map f l).
Proof. intros H. induction l; simpl; constructor; auto. Qed.

Lemma tracking_suffix_empty (branch : Branch) :
  tracking_suffix branch = [] <-> Py.truthy_opt (tracking branch) = false.
Proof.
  unfold tracking_suffix.
  destruct (Py.truthy_opt (tracking branch)); split;
    try reflexivity; discriminate.
Qed.

Lemma eqb_eq (a b : pystr) : Py.eqb a b = true <-> a = b.
Proof.
  revert b. induction a as [|x a IH]; intros [|y b]; simpl;
    try (split; [discriminate | congruence]); [tauto|].
  unfold Py.char_eqb. rewrite andb_true_iff, N.eqb_eq, IH.
  split; [intros [-> ->]; reflexivity | intros E; inversion E; auto].
Qed.

Lemma opt_eqb_eq (a b : option pystr) : Py.opt_eqb a b = true <-> a = b.
Proof.
  destruct a as [x|], b as [y|]; simpl;
    try (split; [discriminate | congruence]); [|tauto].
  rewrite eqb_eq. split; congruence.
Qed.

End BranchRendering.

Section GroupBy.

Context {A K : Type} (keq : K -> K -> bool) (key : A -> K).
Hypothesis keq_eq : forall a b, keq a b = true <-> a = b.

Lemma groupby_concat (l : list A) :
  concat (map snd (Py.groupby keq key l)) = l.
Proof.
  induction l as [|x xs IH]; [reflexivity|].
  simpl. destruct (Py.groupby keq key xs) as [|[k g] rest].
  - simpl in *. rewrite <- IH. reflexivity.
  - destruct (keq (key x) k); simpl in *; rewrite <- IH; reflexivity.
Qed.

Lemma groupby_runs (l : list A) :
  Forall (fun g => snd g <> [] /\ Forall (fun x => key x = fst g) (snd g))
         (Py.groupby keq key l).
Proof.
  induction l as [|x xs IH]; [constructor|].
  simpl. destruct (Py.groupby keq key xs) as [|[k g] rest].
  - constructor; [|constructor]. simpl. split; [discriminate|].
    constructor; auto.
  - inversion IH as [|g0 rest0 [Hne Hall] Hrest]; subst. simpl in *.
    destruct (keq (key x) k) eqn:E.
    + apply keq_eq in E. constructor; [|exact Hrest]. simpl.
      split; [discriminate|]. constructor; [reflexivity|].
      rewrite E. exact Hall.
    + constructor; [|exact IH]. simpl. split; [discriminate|].
      constructor; auto.
Qed.

Lemma groupby_maximal (l : list A) :
  Branch.keys_alternate (Py.groupby keq key l).
Proof.
  induction l as [|x xs IH]; [exact I|].
  simpl. destruct (Py.groupby keq key xs) as [|[k g] rest]; [exact I|].
  destruct (keq (key x) k) eqn:E.
  - apply keq_eq in E. destruct rest as [|g2 rest']; [exact I|].
    simpl in *. rewrite E. exact IH.
  - split; [|exact IH]. simpl. intros H. apply keq_eq in H. congruence.
Qed.

End GroupBy.

Section Remotes.

Import Branch.

Lemma render_remotes_fold self groups output_tmpl render_fns :
  fold_left (render_remotes_step self) groups (output_tmpl, render_fns) =
  (output_tmpl
     ++ concat (map (fun g => py"{" ++ (py"branch_list_" ++ Py.str_of (fst g))
                                ++ py"}" ++ Py.nl)
                    (emitted groups)),
   render_fns
     ++ map (fun g =>
               {| partial_key := py"branch_list_" ++ Py.str_of (fst g);
                  partial_fn := fun _ =>
                    template_remote_format (Py.str_of (fst g))
                      (render_branch_list self (Some (snd g))) |})
            (emitted groups)).
Proof.
  revert output_tmpl render_fns.
  induction groups as [|[remote_name branches] groups IH];
    intros output_tmpl render_fns.
  - simpl. rewrite !app_nil_r. reflexivity.
  - cbn [fold_left render_remotes_step emitted filter fst].
    destruct (Py.truthy_opt remote_name); cbn [negb].
    + rewrite IH. cbn [map concat fst snd].
      rewrite <- !app_assoc. reflexivity.
    + apply IH.
Qed.

End Remotes.

(** C5. For a non-empty list of branches, [render_branch_list] returns the
    join by newlines of one line per branch, in the order of the list.  A
    branch's line is two spaces, its indicator, a space, its hash, a space,
    its name, a space and its tracking suffix, where the indicator is "▸"
    when the branch is active and a space otherwise, the hash is the first
    7 characters of the commit hash, and the suffix is empty exactly when
    the tracking field is [None] or empty, and otherwise is the tracking
    branch, with ", " and the tracking status when there is one, in
    parentheses. *)
Theorem render_branch_list_lines :
  forall (self : Branch.BranchInterface) (b : Branch.Branch)
         (bs : list Branch.Branch),
    let branches := b :: bs in
    exists lines : list pystr,
      Branch.render_branch_list self (Some branches) = Py.join Py.nl lines /\
      length lines = length branches /\
      Forall2
        (fun branch line =>
           exists indicator hash suffix : pystr,
             line = py"  " ++ indicator ++ py" " ++ hash ++ py" "
                      ++ Branch.name branch ++ py" " ++ suffix /\
             (indicator = Branch.indicator_active
              <-> Branch.active branch = true) /\
             (indicator = py" " <-> Branch.active branch = false) /\
             hash = firstn 7 (Branch.commit_hash branch) /\
             length hash <= 7 /\
             (suffix = [] <-> Py.truthy_opt (Branch.tracking branch) = false) /\
             (Py.truthy_opt (Branch.tracking branch) = true ->
              suffix =
                py"(" ++ Py.str_of (Branch.tracking branch)
                  ++ (if Py.truthy_opt (Branch.tracking_status branch)
                      then py", " ++ Py.str_of (Branch.tracking_status branch)
                      else [])
                  ++ py")"))
        branches lines.
Proof.
  intros self b bs branches.
  exists (map Branch.branch_line branches).
  split; [reflexivity|].
  split; [apply length_map|].
  apply Forall2_map_self. intros branch.
  exists (if Branch.active branch then Branch.indicator_active else py" "),
    (firstn 7 (Branch.commit_hash branch)), (Branch.tracking_suffix branch).
  split; [reflexivity|].
  split; [destruct (Branch.active branch); split; try reflexivity;
          discriminate|].
  split; [destruct (Branch.active branch); split; try reflexivity;
          discriminate|].
  split; [reflexivity|].
  split; [apply firstn_le_length|].
  split; [apply tracking_suffix_empty|].
  intros H. unfold Branch.tracking_suffix. rewrite H. reflexivity.
Qed.

(** C6. [render_remotes] groups the branches into the maximal runs of
    adjacent branches with the same remote (the runs concatenate to the
    branch tuple, none is empty, all branches of a run have its remote, and
    consecutive runs have different remotes) and skips the runs whose
    remote is [None] or empty.  The template it returns is a newline
    followed, for each remaining run in order, by the placeholder
    [{branch_list_<remote>}] and a newline; the render functions it returns
    are one per remaining run, in order, each keyed [branch_list_<remote>]
    and formatting [template_remote] with the remote of its run and the
    branch list of its run, one line per branch of the run.  A remote that comes back after another one
    yields its placeholder, and its key, twice. *)
Theorem render_remotes_by_runs :
  (forall self : Branch.BranchInterface,
     let groups :=
       Py.groupby Py.opt_eqb Branch.remote (Branch._branches self) in
     let runs := Branch.emitted groups in
     (concat (map snd groups) = Branch._branches self /\
      Forall (fun g => snd g <> []
                       /\ Forall (fun branch => Branch.remote branch = fst g)
                                 (snd g)) groups /\
      Branch.keys_alternate groups) /\
     fst (Branch.render_remotes self) =
       Py.nl ++ concat (map (fun g => py"{" ++ (py"branch_list_"
                                                  ++ Py.str_of (fst g))
                                        ++ py"}" ++ Py.nl) runs) /\
     length (snd (Branch.render_remotes self)) = length runs /\
     (forall g, In g runs ->
        Branch.render_branch_list self (Some (snd g)) =
        Py.join Py.nl (map Branch.branch_line (snd g))) /\
     Forall2
       (fun g render =>
          Branch.partial_key render = py"branch_list_" ++ Py.str_of (fst g) /\
          forall u : unit,
            Branch.partial_fn render u =
            Branch.template_remote_format (Py.str_of (fst g))
              (Branch.render_branch_list self (Some (snd g))))
       runs (snd (Branch.render_remotes self))) /\
  fst (Branch.render_remotes Branch.interleaved_remotes) =
    Py.nl ++ py"{branch_list_origin}" ++ Py.nl
      ++ py"{branch_list_upstream}" ++ Py.nl
      ++ py"{branch_list_origin}" ++ Py.nl /\
  map Branch.partial_key (snd (Branch.render_remotes Branch.interleaved_remotes))
  = [ py"branch_list_origin"; py"branch_list_upstream";
      py"branch_list_origin" ].
Proof.
  split; [|split; vm_compute; reflexivity].
  intros self groups runs.
  split.
  { split; [apply groupby_concat|].
    split; [apply (groupby_runs _ _ opt_eqb_eq)
           | apply (groupby_maximal _ _ opt_eqb_eq)]. }
  unfold Branch.render_remotes. fold groups.
  rewrite render_remotes_fold. fold runs. cbn [fst snd app].
  split; [reflexivity|].
  split; [apply length_map|].
  split.
  { intros g Hg. apply filter_In in Hg. destruct Hg as [Hg _].
    pose proof (groupby_runs Py.opt_eqb Branch.remote opt_eqb_eq
                  (Branch._branches self)) as Hr.
    rewrite Forall_forall in Hr. destruct (Hr g Hg) as [Hne _].
    destruct (snd g); [now elim Hne | reflexivity]. }
  apply Forall2_map_self. intros g. split; reflexivity.
Qed.

(** ** Worked examples *)

Section Examples.

Import Host.
Local Open Scope Z_scope.
Local Open Scope float_scope.

Example age_of_ten_seconds :
  Status.format_modification_time (Status.clean_interface 1700000000)
    (Py.PInt 1699999990) = py"10s".
Proof. vm_compute. reflexivity. Qed.

Example age_rounds_half_to_even :
  Status.format_modification_time (Status.clean_interface 1700000000)
    (Py.PInt 1699999850) = py" 2m" /\
  Status.format_modification_time (Status.clean_interface 1700000000)
    (Py.PInt 1699999790) = py" 4m".
Proof. split; vm_compute; reflexivity. Qed.

Example age_in_hours_up_to_sixty :
  Status.format_modification_time (Status.clean_interface 1700000000)
    (Py.PInt 1699787600) = py"59h" /\
  Status.format_modification_time (Status.clean_interface 1700000000)
    (Py.PInt 1699784000) = py" 2d".
Proof. split; vm_compute; reflexivity. Qed.

Example age_of_float_timestamps :
  Status.format_modification_time (Status.clean_interface 1700000000)
    (Py.PFloat 1699990000.25) = py" 3h" /\
  Status.format_modification_time (Status.clean_interface 1700000000)
    (Py.PFloat 1600000000.75) = py" 3Y" /\
  Status.format_modification_time (Status.clean_interface 1700000000)
    (Py.PFloat 0) = py"   ".
Proof. repeat split; vm_compute; reflexivity. Qed.

Example age_of_a_future_timestamp :
  Status.format_modification_time (Status.clean_interface 1700000000)
    (Py.PInt 1700000500) = py"-500s".
Proof. vm_compute. reflexivity. Qed.

Example branch_line_of_active_branch :
  Branch.branch_line
    {| Branch.name := py"master";
       Branch.remote := None;
       Branch.commit_hash := py"0123456789abcdef";
       Branch.tracking := Some (py"origin/master");
       Branch.tracking_status := Some (py"ahead 1");
       Branch.active := true |}
  = py"  " ++ [9656%N] ++ py" 0123456 master (origin/master, ahead 1)".
Proof. vm_compute. reflexivity. Qed.

Example stash_id_of_line :
  Status.stash_ids_of [ py"    (0) WIP on master: 0123456 message"; [] ]
  = [ py"0" ].
Proof. vm_compute. reflexivity. Qed.

Example path_of_deleted_file_line :
  Status.file_paths_of [ py"  12m - src/a.py"; []; py"   3h   b.txt  " ]
  = [ py"src/a.py"; py"b.txt" ].
Proof. vm_compute. reflexivity. Qed.

Example stage_on_sample :
  Status.GsStatusStageFileCommand_run Dashboard.sample_env
    Dashboard.sample_edit
  = ([ GitCommand (stage_file (py"a.txt") (Some false));
       window_status_message (py"Staged files successfully.");
       refresh_gitsavvy ], inr tt).
Proof. vm_compute. reflexivity. Qed.

Example conflicts_keybindings_text :
  Status.conflicts_keybindings =
  Py.join Py.nl
    [ []; py"  ###############"; py"  ## CONFLICTS ##";
      py"  ###############"; []; py"  [y] use version from your commit";
      py"  [b] use version from the base"; py"  " ].
Proof. vm_compute. reflexivity. Qed.

End Examples.

(** * Further properties of the two modules *)

(** ** Exceptions *)

Section Quiet.

Import Host.


Lemma quiet_ret {A} (x : A) : quiet (ret x).
Proof. split; reflexivity. Qed.



Lemma returns_defer (callback : M unit) : returns (defer callback) = true.
Proof. reflexivity. Qed.




Lemma quiet_index0 {A} (x : A) (xs : list A) : quiet (index0 (x :: xs)).
Proof. apply quiet_ret. Qed.


End Quiet.


(** ** Every branch is shown once *)

Section BranchPartition.

Import Branch.

Lemma filter_concat_groups {A K} (key : A -> K) (p : K -> bool)
    (groups : list (K * list A)) :
  Forall (fun g => Forall (fun x => key x = fst g) (snd g)) groups ->
  filter (fun x => p (key x)) (concat (map snd groups)) =
  concat (map snd (filter (fun g => p (fst g)) groups)).
Proof.
  induction 1 as [|[k g] groups Hg _ IH]; [reflexivity|].
  cbn [map concat filter fst snd] in *. rewrite filter_app, IH.
  assert (E : filter (fun x => p (key x)) g = if p k then g else []).
  { clear IH. induction g as [|x g IHg]; [destruct (p k); reflexivity|].
    inversion Hg as [|? ? Hx Hg']; subst. simpl.
    rewrite (IHg Hg'). destruct (p (key x)); reflexivity. }
  rewrite E. destruct (p k); reflexivity.
Qed.

Lemma remote_runs_cover (self : BranchInterface) :
  concat (map snd (emitted (Py.groupby Py.opt_eqb remote (_branches self))))
  = filter (fun branch => Py.truthy_opt (remote branch)) (_branches self).
Proof.
  unfold emitted.
  rewrite <- (filter_concat_groups remote Py.truthy_opt).
  - rewrite groupby_concat. reflexivity.
  - eapply Forall_impl;
      [|apply (groupby_runs Py.opt_eqb remote opt_eqb_eq)].
    intros g [_ H]. exact H.
Qed.

Lemma filter_split_length {A} (f : A -> bool) (l : list A) :
  length (filter (fun x => negb (f x)) l) + length (filter f l) = length l.
Proof.
  induction l as [|x l IH]; [reflexivity|].
  simpl. destruct (f x); simpl; lia.
Qed.

Lemma filter_none {A} (f : A -> bool) (l : list A) :
  Forall (fun x => f x = false) l -> filter f l = [].
Proof.
  induction 1 as [|x l Hx _ IH]; [reflexivity|].
  simpl. rewrite Hx. exact IH.
Qed.

End BranchPartition.

(** X2. The branch dashboard shows every branch once: the local list that
    [render_branch_list] renders without argument, or with an empty list,
    holds the branches with no remote, the runs that [render_remotes]
    renders hold, in order, the branches with a remote, and the two
    together count as many branches as the interface has. *)
Theorem every_branch_rendered_once :
  forall self : Branch.BranchInterface,
    let has_remote := fun branch => Py.truthy_opt (Branch.remote branch) in
    let locals :=
      filter (fun branch => negb (has_remote branch))
             (Branch._branches self) in
    let runs :=
      Branch.emitted
        (Py.groupby Py.opt_eqb Branch.remote (Branch._branches self)) in
    Branch.render_branch_list self None =
      Py.join Py.nl (map Branch.branch_line locals) /\
    Branch.render_branch_list self (Some []) =
      Branch.render_branch_list self None /\
    concat (map snd runs) = filter has_remote (Branch._branches self) /\
    length locals + length (concat (map snd runs))
    = length (Branch._branches self) /\
    (forall branch, In branch locals -> ~ In branch (concat (map snd runs))).
Proof.
  intros self has_remote locals runs.
  split; [reflexivity|]. split; [reflexivity|].
  unfold runs. rewrite remote_runs_cover. fold has_remote.
  split; [reflexivity|].
  split; [apply filter_split_length|].
  intros branch Hl Hr. unfold locals in Hl.
  apply filter_In in Hl. apply filter_In in Hr.
  destruct Hl as [_ Hl], Hr as [_ Hr]. rewrite Hr in Hl. discriminate.
Qed.

(** X3. [render_remotes] returns the bare template ["\n"] and no render
    function exactly when no branch has a remote; in particular for an
    empty tuple of branches. *)
Theorem render_remotes_empty_iff_no_remote :
  forall self : Branch.BranchInterface,
    Branch.render_remotes self = (Py.nl, [])
    <-> Forall (fun branch => Py.truthy_opt (Branch.remote branch) = false)
               (Branch._branches self).
Proof.
  intros self. unfold Branch.render_remotes.
  rewrite render_remotes_fold. cbn [app].
  pose proof (remote_runs_cover self) as Hc.
  set (runs := Branch.emitted _) in *.
  assert (Hruns : runs = [] <->
            filter (fun branch => Py.truthy_opt (Branch.remote branch))
                   (Branch._branches self) = []).
  { rewrite <- Hc. split; [intros ->; reflexivity|].
    intros H. destruct runs as [|g runs'] eqn:E; [reflexivity|]. exfalso.
    assert (Hin : In g (Py.groupby Py.opt_eqb Branch.remote
                          (Branch._branches self))).
    { assert (Hg : In g runs) by (rewrite E; left; reflexivity).
      unfold runs, Branch.emitted in Hg. apply filter_In in Hg. tauto. }
    pose proof (groupby_runs Py.opt_eqb Branch.remote opt_eqb_eq
                  (Branch._branches self)) as Hr.
    rewrite Forall_forall in Hr. destruct (Hr g Hin) as [Hne _].
    cbn [map concat] in H. destruct (snd g); [now elim Hne | discriminate]. }
  split.
  - intros H. injection H as _ Hm.
    assert (Hr : runs = []) by (destruct runs; [reflexivity | discriminate]).
    apply Hruns in Hr. rewrite Forall_forall. intros branch Hb.
    destruct (Py.truthy_opt (Branch.remote branch)) eqn:E; [|reflexivity].
    assert (Hin : In branch
              (filter (fun branch => Py.truthy_opt (Branch.remote branch))
                      (Branch._branches self)))
      by (apply filter_In; auto).
    rewrite Hr in Hin. destruct Hin.
  - intros H. assert (Hr : runs = []) by (apply Hruns, filter_none, H).
    rewrite Hr. reflexivity.
Qed.

(** ** Slices and searches *)

Section PyFacts.

Lemma slice_from (s : pystr) (lo : Z) :
  (0 <= lo)%Z -> Py.slice s lo None = skipn (Z.to_nat lo) s.
Proof.
  intros H. unfold Py.slice, Py.clamp, Py.str, Py.char in *.
  destruct (Z.ltb_spec lo 0); [lia|].
  destruct (Z.le_gt_cases lo (Z.of_nat (length s))) as [Hle|Hgt].
  - rewrite Z.min_l by lia. apply firstn_all2.
    rewrite length_skipn. lia.
  - rewrite Z.min_r by lia. rewrite Z.sub_diag. cbn [Z.to_nat firstn].
    symmetry. apply skipn_all2. lia.
Qed.

Lemma slice_range (s : pystr) (lo hi : Z) :
  (0 <= lo <= hi)%Z -> (hi <= Z.of_nat (length s))%Z ->
  Py.slice s lo (Some hi) = firstn (Z.to_nat (hi - lo)) (skipn (Z.to_nat lo) s).
Proof.
  intros H1 H2. unfold Py.slice, Py.clamp, Py.str, Py.char in *.
  destruct (Z.ltb_spec lo 0); [lia|].
  destruct (Z.ltb_spec hi 0); [lia|].
  rewrite !Z.min_l by lia. reflexivity.
Qed.

Lemma slice_but_last (s : pystr) :
  s <> [] -> Py.slice s 0 (Some (-1)%Z) = removelast s.
Proof.
  intros H. unfold Py.slice, Py.clamp, Py.str, Py.char in *.
  cbn [Z.ltb Z.compare].
  assert (0 < length s) by (destruct s; [now elim H | simpl; lia]).
  rewrite Z.min_l, Z.max_r by lia. cbn [Z.to_nat skipn].
  rewrite removelast_firstn_len. f_equal. lia.
Qed.

Lemma strip_space_cons (s : pystr) : Py.strip (32%N :: s) = Py.strip s.
Proof. reflexivity. Qed.

Lemma strip_short (s : pystr) (n : nat) :
  length s <= n -> Py.strip (skipn n s) = [].
Proof. intros H. rewrite skipn_all2 by exact H. reflexivity. Qed.

Lemma startswith_nil (s : pystr) : Py.startswith s [] = true.
Proof. destruct s; reflexivity. Qed.

Lemma find_from_absent (c : Py.char) (s : pystr) (i : Z) :
  ~ In c s -> Py.find_from s [c] i = (-1)%Z.
Proof.
  revert i. induction s as [|x s IH]; intros i H; [reflexivity|].
  cbn [Py.find_from Py.startswith].
  destruct (Py.char_eqb c x) eqn:E.
  - apply N.eqb_eq in E. subst. elim H. left. reflexivity.
  - cbn [andb]. apply IH. intros Hin. apply H. right. exact Hin.
Qed.

Lemma find_from_first (c : Py.char) (pre rest : pystr) (i : Z) :
  ~ In c pre ->
  Py.find_from (pre ++ c :: rest) [c] i = (i + Z.of_nat (length pre))%Z.
Proof.
  revert i. induction pre as [|x pre IH]; intros i H.
  - cbn [app Py.find_from Py.startswith length].
    unfold Py.char_eqb. rewrite N.eqb_refl, startswith_nil. cbn. lia.
  - cbn [app Py.find_from Py.startswith].
    destruct (Py.char_eqb c x) eqn:E.
    + apply N.eqb_eq in E. subst. elim H. left. reflexivity.
    + cbn [andb]. rewrite IH by (intros Hin; apply H; right; exact Hin).
      cbn [length]. lia.
Qed.

End PyFacts.

(** ** Rows that the dashboard renders, as the commands read them *)

Section Rows.

Import Host Status.

Lemma file_paths_of_one (line : pystr) :
  line <> [] ->
  file_paths_of [line] = [Py.strip (skipn 7 line)].
Proof.
  intros H. unfold file_paths_of. destruct line; [now elim H|].
  cbn [filter Py.truthy map]. rewrite slice_from by lia. reflexivity.
Qed.

Lemma render_by_rows (self : StatusInterface) :
  render_staged_files self =
    (if Py.nonempty (staged_entries self)
     then template_staged_format
            (Py.join Py.nl (map (staged_line self) (staged_entries self)))
     else []) /\
  render_unstaged_files self =
    (if Py.nonempty (unstaged_entries self)
     then template_unstaged_format
            (Py.join Py.nl (map (unstaged_line self) (unstaged_entries self)))
     else []) /\
  render_untracked_files self =
    (if Py.nonempty (untracked_entries self)
     then template_untracked_format
            (Py.join Py.nl
               (map (untracked_line self) (untracked_entries self)))
     else []) /\
  render_merge_conflicts self =
    (if Py.nonempty (conflict_entries self)
     then template_merge_conflicts_format
            (Py.join Py.nl (map conflict_line (conflict_entries self)))
     else []).
Proof.
  unfold render_staged_files, render_unstaged_files, render_untracked_files,
    render_merge_conflicts.
  repeat split;
    match goal with
    | |- context [Py.nonempty ?l] => destruct l; reflexivity
    end.
Qed.

Lemma rows_read (self : StatusInterface) (f : FileStatus) :
  length (format_modification_time self (modified f)) = 3 ->
  file_paths_of [staged_line self f] = [Py.strip (get_path f)] /\
  file_paths_of [unstaged_line self f] = [Py.strip (path f)] /\
  file_paths_of [untracked_line self f] = [Py.strip (path f)] /\
  is_file_line (staged_line self f)
    = negb (Py.eqb (index_status f) (py"D")) /\
  is_file_line (unstaged_line self f)
    = negb (Py.eqb (working_status f) (py"D")) /\
  is_file_line (untracked_line self f) = true.
Proof.
  intros Hage.
  unfold staged_line, unstaged_line, untracked_line, is_file_line.
  destruct (format_modification_time self (modified f))
    as [|a1 [|a2 [|a3 [|a4 age]]]]; try discriminate.
  repeat split.
  - rewrite file_paths_of_one by discriminate.
    destruct (Py.eqb (index_status f) (py"D")); reflexivity.
  - rewrite file_paths_of_one by discriminate.
    destruct (Py.eqb (working_status f) (py"D")); reflexivity.
  - rewrite file_paths_of_one by discriminate. reflexivity.
  - destruct (Py.eqb (index_status f) (py"D"));
      (rewrite slice_range; [reflexivity | lia | cbn; lia]).
  - destruct (Py.eqb (working_status f) (py"D"));
      (rewrite slice_range; [reflexivity | lia | cbn; lia]).
  - rewrite slice_range; [reflexivity | lia | cbn; lia].
Qed.

Lemma file_paths_of_cons (line : pystr) (lines : list pystr) :
  file_paths_of (line :: lines) = file_paths_of [line] ++ file_paths_of lines.
Proof. unfold file_paths_of. cbn [filter]. destruct (Py.truthy line); reflexivity. Qed.

Lemma for_each_logs {A} (f : A -> list call) (body : A -> M unit)
    (xs : list A) :
  (forall x, body x = (f x, inr tt)) ->
  for_each xs body = (flat_map f xs, inr tt).
Proof.
  intros H. induction xs as [|x xs IH]; cbn [for_each flat_map].
  - reflexivity.
  - rewrite H, bind_log, IH. reflexivity.
Qed.

End Rows.

(** X4. When the age column of a row is three characters wide, the file
    commands read back what the row shows.  Off a row of the staged,
    unstaged or untracked section, [line[7:].strip()] is the path shown
    (for a staged rename, the text "old -> new"), stripped; and the test
    [line[5:8] == "   "] of the open and diff commands holds for every
    untracked row and for exactly the staged and unstaged rows that are
    not marked deleted.  The four sections are these rows, joined by
    newlines inside the section template. *)
Theorem file_rows_read_back :
  forall (self : Status.StatusInterface) (f : Host.FileStatus),
    length (Status.format_modification_time self (Host.modified f)) = 3 ->
    Status.file_paths_of [Status.staged_line self f]
      = [Py.strip (Status.get_path f)] /\
    Status.file_paths_of [Status.unstaged_line self f]
      = [Py.strip (Host.path f)] /\
    Status.file_paths_of [Status.untracked_line self f]
      = [Py.strip (Host.path f)] /\
    Status.is_file_line (Status.staged_line self f)
      = negb (Py.eqb (Host.index_status f) (py"D")) /\
    Status.is_file_line (Status.unstaged_line self f)
      = negb (Py.eqb (Host.working_status f) (py"D")) /\
    Status.is_file_line (Status.untracked_line self f) = true /\
    Status.render_unstaged_files self =
      (if Py.nonempty (Status.unstaged_entries self)
       then Status.template_unstaged_format
              (Py.join Py.nl (map (Status.unstaged_line self)
                                  (Status.unstaged_entries self)))
       else []) /\
    Status.render_staged_files self =
      (if Py.nonempty (Status.staged_entries self)
       then Status.template_staged_format
              (Py.join Py.nl (map (Status.staged_line self)
                                  (Status.staged_entries self)))
       else []) /\
    Status.render_untracked_files self =
      (if Py.nonempty (Status.untracked_entries self)
       then Status.template_untracked_format
              (Py.join Py.nl (map (Status.untracked_line self)
                                  (Status.untracked_entries self)))
       else []).
Proof.
  intros self f Hage.
  destruct (render_by_rows self) as (Hs & Hu & Ht & _).
  destruct (rows_read self f Hage) as (H1 & H2 & H3 & H4 & H5 & H6).
  repeat split; assumption.
Qed.

Lemma file_rows_read_back_example :
  Status.file_paths_of
    [Status.unstaged_line (Status.clean_interface 1700000000)
       (Status.entry (py"src/a.py") (py" ") (py"D"))]
  = [py"src/a.py"] /\
  Status.is_file_line
    (Status.unstaged_line (Status.clean_interface 1700000000)
       (Status.entry (py"src/a.py") (py" ") (py"D")))
  = false.
Proof.
  pose proof (file_rows_read_back (Status.clean_interface 1700000000)
                (Status.entry (py"src/a.py") (py" ") (py"D")) eq_refl)
    as (_ & Hu & _ & _ & Hd & _).
  split; [exact Hu | exact Hd].
Defined.

(** X5. A row of the merge-conflicts section is four spaces and the path,
    with no age column.  Off such a row the file commands, which read
    [line[7:].strip()], get the path without its first three characters,
    and the use-version commands, which read [line[5:]], get the path
    without its first character. *)
Theorem conflict_rows_read_shifted :
  forall f : Host.FileStatus,
    Status.conflict_line f = py"    " ++ Host.path f /\
    Status.file_paths_of [Status.conflict_line f]
      = [Py.strip (skipn 3 (Host.path f))] /\
    Py.slice (Status.conflict_line f) 5 None = skipn 1 (Host.path f).
Proof.
  intros f. split; [reflexivity|]. split.
  - rewrite file_paths_of_one by discriminate. reflexivity.
  - rewrite slice_from by lia. reflexivity.
Qed.

Section StashRows.

Import Host Status.

Lemma stash_ids_of_one (line : pystr) :
  line <> [] ->
  stash_ids_of [line] =
  [Py.slice line (Py.find line (py"(") + 1) (Some (Py.find line (py")")))].
Proof.
  intros H. unfold stash_ids_of. destruct line; [now elim H|]. reflexivity.
Qed.

Lemma stash_line_id (stash : Stash) :
  ~ In 41%N (id stash) ->
  stash_ids_of [stash_line stash] = [id stash].
Proof.
  intros H. rewrite stash_ids_of_one by discriminate. f_equal.
  assert (Hopen : Py.find (stash_line stash) (py"(") = 4%Z).
  { unfold stash_line, Py.find.
    change (py"    (" ++ id stash ++ py") " ++ description stash)
      with (32%N :: 32%N :: 32%N :: 32%N :: 40%N
              :: (id stash ++ 41%N :: 32%N :: description stash)).
    change (py"(") with [40%N].
    cbn [Py.find_from Py.startswith Py.char_eqb N.eqb Pos.eqb andb].
    rewrite startswith_nil. reflexivity. }
  assert (Hclose : Py.find (stash_line stash) (py")")
                   = (5 + Z.of_nat (length (id stash)))%Z).
  { unfold stash_line, Py.find.
    change (py"    (" ++ id stash ++ py") " ++ description stash)
      with (32%N :: 32%N :: 32%N :: 32%N :: 40%N
              :: (id stash ++ 41%N :: 32%N :: description stash)).
    change (py")") with [41%N].
    cbn [Py.find_from Py.startswith Py.char_eqb N.eqb Pos.eqb andb].
    rewrite find_from_first by exact H. lia. }
  rewrite Hopen, Hclose.
  rewrite slice_range.
  - replace (Z.to_nat (5 + Z.of_nat (length (id stash)) - (4 + 1)))
      with (length (id stash)) by lia.
    unfold stash_line.
    change (skipn (Z.to_nat (4 + 1))
              (py"    (" ++ id stash ++ py") " ++ description stash))
      with (id stash ++ (py") " ++ description stash)).
    rewrite firstn_app, firstn_all, Nat.sub_diag. cbn [firstn].
    apply app_nil_r.
  - lia.
  - unfold stash_line, Py.str, Py.char. rewrite !length_app. cbn [length Py.lit map list_ascii_of_string]. lia.
Qed.

End StashRows.

(** X6. The stash command reads back the id of a stash row: off the line
    that [render_stashes] formats for a stash, four spaces, the id in
    parentheses, a space and the description, the slice between the first
    ["("] and the first [")"] is the id, whatever the description holds,
    provided the id holds no [")"].  [render_stashes] renders these rows,
    joined by newlines inside its template, and the empty string when
    there is no stash. *)
Theorem stash_rows_read_back :
  forall stash : Status.Stash,
    ~ In 41%N (Status.id stash) ->
    Status.stash_ids_of [Status.stash_line stash] = [Status.id stash] /\
    (forall stash_list,
       Status.render_stashes stash_list =
       match stash_list with
       | [] => []
       | _ :: _ =>
           Status.template_stashes_format
             (Py.join Py.nl (map Status.stash_line stash_list))
       end).
Proof.
  intros stash H. split; [apply stash_line_id, H|].
  intros [|s l]; reflexivity.
Qed.

Lemma stash_rows_read_back_example :
  Status.stash_ids_of
    [Status.stash_line
       {| Status.id := py"12";
          Status.description := py"WIP on master (fix) parser" |}]
  = [py"12"].
Proof.
  refine (proj1 (stash_rows_read_back
                   {| Status.id := py"12";
                      Status.description := py"WIP on master (fix) parser" |}
                   _)).
  cbn. intuition discriminate.
Defined.

(** X7. A non-empty line of the stashes region with neither ["("] nor
    [")"], such as a heading, still yields an id: both searches return
    [-1], so the id is [line[0:-1]], the line without its last
    character. *)
Theorem stash_id_of_line_without_parentheses :
  forall line : pystr,
    line <> [] -> ~ In 40%N line -> ~ In 41%N line ->
    Status.stash_ids_of [line] = [removelast line].
Proof.
  intros line Hne Hopen Hclose.
  rewrite stash_ids_of_one by exact Hne.
  unfold Py.find. change (py"(") with [40%N]. change (py")") with [41%N].
  rewrite !find_from_absent by assumption.
  change (-1 + 1)%Z with 0%Z. rewrite slice_but_last by exact Hne.
  reflexivity.
Qed.

Lemma stash_id_of_heading :
  Status.stash_ids_of [py"  STASHES:"] = [py"  STASHES"].
Proof.
  refine (stash_id_of_line_without_parentheses (line := py"  STASHES:")
            _ _ _); cbn; intuition discriminate.
Defined.

(** ** From rendered rows to git *)

Section RowsToGit.

Import Host Status.

Lemma file_paths_of_rows {A} (row : A -> pystr) (shown : A -> pystr)
    (entries : list A) :
  Forall (fun f => file_paths_of [row f] = [Py.strip (shown f)]) entries ->
  file_paths_of (map row entries) = map (fun f => Py.strip (shown f)) entries.
Proof.
  induction 1 as [|f entries Hf _ IH]; [reflexivity|].
  cbn [map]. rewrite file_paths_of_cons, Hf, IH. reflexivity.
Qed.

Lemma file_paths_of_length (lines : list pystr) :
  length (file_paths_of lines) = length (filter Py.truthy lines).
Proof. apply length_map. Qed.

End RowsToGit.

(** X8. Pressing stage with every row of the unstaged section selected
    stages the files shown: when the lines of the selection are the rows
    that [render_unstaged_files] formats for the unstaged entries, and each
    age is three characters wide, [GsStatusStageFileCommand.run] calls
    [stage_file] on the stripped path of each entry, in order, deleted
    files included. *)
Theorem stage_reads_unstaged_rows :
  forall (interface : Status.StatusInterface) (self : Host.Env)
         (edit : Host.Edit),
    Forall (fun f =>
              length (Status.format_modification_time interface
                        (Host.modified f)) = 3)
           (Status.unstaged_entries interface) ->
    Host.get_lines_from_regions self (Host.sel self)
      (Some (Host.get_view_regions self (py"unstaged_files")
               ++ Host.get_view_regions self (py"untracked_files")
               ++ Host.get_view_regions self (py"merge_conflicts")))
    = map (Status.unstaged_line interface)
          (Status.unstaged_entries interface) ->
    Host.staged_by (fst (Status.GsStatusStageFileCommand_run self edit))
    = map (fun f => Py.strip (Host.path f))
          (Status.unstaged_entries interface).
Proof.
  intros interface self edit Hages Hlines.
  pose proof (stage_file_run self edit) as Hrun. cbv zeta in Hrun.
  rewrite Hlines in Hrun. rewrite Hrun.
  rewrite (file_paths_of_rows (Status.unstaged_line interface) Host.path).
  - generalize (map (fun f => Py.strip (Host.path f))
                    (Status.unstaged_entries interface)).
    intros [|p paths]; [reflexivity|].
    cbn [Py.nonempty fst]. rewrite staged_by_app, staged_by_stage.
    apply app_nil_r.
  - eapply Forall_impl; [|exact Hages].
    intros f Hf. apply (rows_read interface f Hf).
Qed.

Lemma stage_reads_unstaged_rows_example :
  Host.staged_by
    (fst (Status.GsStatusStageFileCommand_run
            (Status.env_with_lines
               (map (Status.unstaged_line
                       (Status.interface_with []
                          [ Status.entry (py"src/a.py") (py" ") (py"M");
                            Status.entry (py"b c.txt") (py" ") (py"D") ]))
                    [ Status.entry (py"src/a.py") (py" ") (py"M");
                      Status.entry (py"b c.txt") (py" ") (py"D") ]))
            Dashboard.sample_edit))
  = [ py"src/a.py"; py"b c.txt" ].
Proof.
  refine (stage_reads_unstaged_rows
            (Status.interface_with []
               [ Status.entry (py"src/a.py") (py" ") (py"M");
                 Status.entry (py"b c.txt") (py" ") (py"D") ])
            (Status.env_with_lines _) Dashboard.sample_edit _ _).
  - repeat constructor.
  - reflexivity.
Defined.

(** X9. Pressing unstage with every row of the staged section selected
    unstages what the rows show: when the lines of the selection are the
    rows that [render_staged_files] formats for the staged entries, and
    each age is three characters wide, [GsStatusUnstageFileCommand.run]
    calls [unstage_file] on the stripped text of [get_path] of each entry,
    in order: the path, or for an entry with a [path_alt], the text of the
    old path, [" -> "] and the path. *)
Theorem unstage_reads_staged_rows :
  forall (interface : Status.StatusInterface) (self : Host.Env)
         (edit : Host.Edit),
    Forall (fun f =>
              length (Status.format_modification_time interface
                        (Host.modified f)) = 3)
           (Status.staged_entries interface) ->
    Host.get_lines_from_regions self (Host.sel self)
      (Some (Host.get_view_regions self (py"staged_files")))
    = map (Status.staged_line interface) (Status.staged_entries interface) ->
    Host.unstaged_by (fst (Status.GsStatusUnstageFileCommand_run self edit))
    = map (fun f => Py.strip (Status.get_path f))
          (Status.staged_entries interface) /\
    (forall f old,
       Host.path_alt f = Some old -> old <> [] ->
       Status.get_path f = old ++ py" -> " ++ Host.path f).
Proof.
  intros interface self edit Hages Hlines. split.
  - pose proof (unstage_file_run self edit) as Hrun. cbv zeta in Hrun.
    rewrite Hlines in Hrun. rewrite Hrun.
    rewrite (file_paths_of_rows (Status.staged_line interface)
               Status.get_path).
    + generalize (map (fun f => Py.strip (Status.get_path f))
                      (Status.staged_entries interface)).
      intros [|p paths]; [reflexivity|].
      cbn [Py.nonempty fst]. rewrite unstaged_by_app, unstaged_by_unstage.
      apply app_nil_r.
    + eapply Forall_impl; [|exact Hages].
      intros f Hf. apply (rows_read interface f Hf).
  - intros f old Halt Hold. unfold Status.get_path. rewrite Halt.
    destruct old; [now elim Hold | reflexivity].
Qed.

Lemma unstage_reads_staged_rows_example :
  Host.unstaged_by
    (fst (Status.GsStatusUnstageFileCommand_run
            (Status.env_with_lines
               (map (Status.staged_line
                       (Status.interface_with
                          [ Status.renamed (py"old.py") (py"new.py") ] []))
                    [ Status.renamed (py"old.py") (py"new.py") ]))
            Dashboard.sample_edit))
  = [ py"old.py -> new.py" ].
Proof.
  refine (proj1 (unstage_reads_staged_rows
                   (Status.interface_with
                      [ Status.renamed (py"old.py") (py"new.py") ] [])
                   (Status.env_with_lines _) Dashboard.sample_edit _ _)).
  - repeat constructor.
  - reflexivity.
Defined.

(** X10. A non-empty line shorter than eight characters still yields a
    path, the empty one: no non-empty line is dropped by the file
    commands, and when the selection within the stage regions is one such
    line, [GsStatusStageFileCommand.run] calls [stage_file] on the empty
    path, shows its message and refreshes. *)
Theorem short_line_stages_empty_path :
  forall (self : Host.Env) (edit : Host.Edit) (line : pystr),
    line <> [] -> length line <= 7 ->
    Host.get_lines_from_regions self (Host.sel self)
      (Some (Host.get_view_regions self (py"unstaged_files")
               ++ Host.get_view_regions self (py"untracked_files")
               ++ Host.get_view_regions self (py"merge_conflicts")))
    = [line] ->
    Status.GsStatusStageFileCommand_run self edit =
    ([ Host.GitCommand (Host.stage_file [] (Some false));
       Host.window_status_message (py"Staged files successfully.");
       Host.refresh_gitsavvy ], inr tt) /\
    (forall lines,
       length (Status.file_paths_of lines)
       = length (filter Py.truthy lines)).
Proof.
  intros self edit line Hne Hlen Hlines.
  split; [|apply file_paths_of_length].
  pose proof (stage_file_run self edit) as Hrun. cbv zeta in Hrun.
  rewrite Hlines, file_paths_of_one in Hrun by exact Hne.
  rewrite strip_short in Hrun by exact Hlen. exact Hrun.
Qed.

Lemma short_line_stages_empty_path_example :
  Status.GsStatusStageFileCommand_run
    (Status.env_with_lines [py"  "]) Dashboard.sample_edit =
  ([ Host.GitCommand (Host.stage_file [] (Some false));
     Host.window_status_message (py"Staged files successfully.");
     Host.refresh_gitsavvy ], inr tt).
Proof.
  refine (proj1 (@short_line_stages_empty_path
                   (Status.env_with_lines [py"  "])
                   Dashboard.sample_edit (py"  ") _ _ _)).
  - discriminate.
  - cbn. lia.
  - reflexivity.
Defined.

(** ** Discarding, resolving and ignoring *)

Section Destructive.

Import Host Status.

Lemma discard_untracked_run (self : Env) :
  discard_untracked self =
  ((if destructive self (py"discard one or more untracked files")
    then map (fun p => GitCommand (discard_untracked_file p))
             (file_paths_of
                (get_lines_from_regions self (sel self)
                   (Some (get_view_regions self (py"untracked_files")))))
    else []), inr tt).
Proof.
  unfold discard_untracked.
  destruct (file_paths_of _) as [|p paths]; cbn [Py.nonempty].
  - destruct (destructive self _); reflexivity.
  - destruct (destructive self _); [|reflexivity].
    apply for_each_emit.
Qed.

Lemma discard_unstaged_run (self : Env) :
  discard_unstaged self =
  ((if destructive self (py"discard one or more unstaged files")
    then map (fun p => GitCommand (checkout_file p))
             (file_paths_of
                (get_lines_from_regions self (sel self)
                   (Some (get_view_regions self (py"unstaged_files")
                            ++ get_view_regions self (py"merge_conflicts")))))
    else []), inr tt).
Proof.
  unfold discard_unstaged.
  destruct (file_paths_of _) as [|p paths]; cbn [Py.nonempty].
  - destruct (destructive self _); reflexivity.
  - destruct (destructive self _); [|reflexivity].
    apply for_each_emit.
Qed.

Lemma is_commit_version_deleted_first (p : pystr)
    (conflicts : list FileStatus) :
  is_commit_version_deleted p conflicts =
  match find (fun conflict => Py.eqb (path conflict) p) conflicts with
  | Some conflict => Py.eqb (working_status conflict) (py"D")
  | None => false
  end.
Proof.
  induction conflicts as [|c conflicts IH]; [reflexivity|].
  cbn [is_commit_version_deleted find].
  destruct (Py.eqb (path c) p); [reflexivity | exact IH].
Qed.

Lemma is_base_version_deleted_first (p : pystr)
    (conflicts : list FileStatus) :
  is_base_version_deleted p conflicts =
  match find (fun conflict => Py.eqb (path conflict) p) conflicts with
  | Some conflict => Py.eqb (index_status conflict) (py"D")
  | None => false
  end.
Proof.
  induction conflicts as [|c conflicts IH]; [reflexivity|].
  cbn [is_base_version_deleted find].
  destruct (Py.eqb (path c) p); [reflexivity | exact IH].
Qed.

Lemma path_join_root (p : pystr) :
  Py.path_join (py"/") p = (if Py.startswith p (py"/") then p else py"/" ++ p)
  /\ Py.startswith (Py.path_join (py"/") p) (py"/") = true.
Proof.
  unfold Py.path_join.
  destruct (Py.startswith p (py"/")) eqn:E.
  - split; [reflexivity | exact E].
  - split; [reflexivity|]. cbn. apply startswith_nil.
Qed.

End Destructive.

(** X11. [GsStatusDiscardChangesToFileCommand.run] first discards the
    untracked files selected, then checks out the files selected in the
    unstaged and merge-conflict regions, each group only when its
    destructive action is let through, and calls no other git method.  It
    always ends by refreshing and showing "Successfully discarded
    changes.": with every destructive action declined these are its only
    two calls.  [GsStatusDiscardAllChangesCommand.run] makes no call at all
    when its destructive action is declined. *)
Theorem discard_by_confirmation :
  forall (self : Host.Env) (edit : Host.Edit),
    let untracked :=
      Status.file_paths_of
        (Host.get_lines_from_regions self (Host.sel self)
           (Some (Host.get_view_regions self (py"untracked_files")))) in
    let tracked :=
      Status.file_paths_of
        (Host.get_lines_from_regions self (Host.sel self)
           (Some (Host.get_view_regions self (py"unstaged_files")
                    ++ Host.get_view_regions self (py"merge_conflicts")))) in
    let closing :=
      [ Host.refresh_gitsavvy;
        Host.window_status_message (py"Successfully discarded changes.") ] in
    Status.GsStatusDiscardChangesToFileCommand_run self edit =
      ((if Host.destructive self (py"discard one or more untracked files")
        then map (fun p => Host.GitCommand (Host.discard_untracked_file p))
                 untracked
        else [])
       ++ (if Host.destructive self (py"discard one or more unstaged files")
           then map (fun p => Host.GitCommand (Host.checkout_file p)) tracked
           else [])
       ++ closing, inr tt) /\
    Status.GsStatusDiscardChangesToFileCommand_run (Status.declining self)
      edit = (closing, inr tt) /\
    Status.GsStatusDiscardAllChangesCommand_run (Status.declining self) edit
      = ([], inr tt).
Proof.
  intros self edit untracked tracked closing.
  assert (E : forall env,
            Status.GsStatusDiscardChangesToFileCommand_run env edit =
            (fst (Status.discard_untracked env)
               ++ fst (Status.discard_unstaged env) ++ closing, inr tt)).
  { intros env. unfold Status.GsStatusDiscardChangesToFileCommand_run.
    rewrite discard_untracked_run, discard_unstaged_run.
    rewrite !bind_log. reflexivity. }
  split; [|split; [|reflexivity]].
  - rewrite E, discard_untracked_run, discard_unstaged_run. reflexivity.
  - rewrite E, discard_untracked_run, discard_unstaged_run. reflexivity.
Qed.

(** X12. The use-version commands schedule one callback, which never
    raises.  For each non-empty line under a cursor it takes [line[5:]] as
    the path and looks up the first conflict entry with that path: when
    that entry's status is "D" (the working status for the commit's
    version, the index status for the base version) it runs git rm on the
    path, and otherwise, also when no entry has that path, it checks the
    path out with --theirs (commit) or --ours (base) and stages it.  After
    all paths it refreshes the dashboard. *)
Theorem use_version_by_first_conflict :
  forall (self : Host.Env) (edit : Host.Edit),
    let paths := Status.selected_conflict_paths self in
    let deleted := fun (status : Host.FileStatus -> pystr) (p : pystr) =>
      match find (fun conflict => Py.eqb (Host.path conflict) p)
                 (Host.interface_conflict_entries self) with
      | Some conflict => Py.eqb (status conflict) (py"D")
      | None => false
      end in
    let resolve := fun status side p =>
      if deleted status p
      then [ Host.GitCommand (Host.git [py"rm"; py"--"; p]) ]
      else [ Host.GitCommand (Host.git [py"checkout"; side; py"--"; p]);
             Host.GitCommand (Host.stage_file p None) ] in
    Status.GsStatusUseCommitVersionCommand_run self edit =
      ([ Host.set_timeout_async
           (flat_map (resolve Host.working_status (py"--theirs")) paths
              ++ [ Host.refresh_gitsavvy ], None) ], inr tt) /\
    Status.GsStatusUseBaseVersionCommand_run self edit =
      ([ Host.set_timeout_async
           (flat_map (resolve Host.index_status (py"--ours")) paths
              ++ [ Host.refresh_gitsavvy ], None) ], inr tt).
Proof.
  intros self edit paths deleted resolve. split.
  - unfold Status.GsStatusUseCommitVersionCommand_run,
      Status.GsStatusUseCommitVersionCommand_run_async.
    fold paths.
    rewrite (for_each_logs (resolve Host.working_status (py"--theirs"))).
    + rewrite bind_log. reflexivity.
    + intros p. unfold resolve, deleted.
      rewrite is_commit_version_deleted_first.
      destruct (find _ _) as [c|]; [destruct (Py.eqb _ _)|]; reflexivity.
  - unfold Status.GsStatusUseBaseVersionCommand_run,
      Status.GsStatusUseBaseVersionCommand_run_async.
    fold paths.
    rewrite (for_each_logs (resolve Host.index_status (py"--ours"))).
    + rewrite bind_log. reflexivity.
    + intros p. unfold resolve, deleted.
      rewrite is_base_version_deleted_first.
      destruct (find _ _) as [c|]; [destruct (Py.eqb _ _)|]; reflexivity.
Qed.

(** X13. [GsStatusIgnoreFileCommand.run] adds one ignore entry per path
    selected in the four file regions, in order, each anchored at the
    root of the repository: the entry is the path itself when it starts
    with "/" and "/" followed by the path otherwise, so every entry starts
    with "/".  It then shows its message and refreshes; with no path
    selected it makes no call. *)
Theorem ignore_file_anchors_paths :
  forall (self : Host.Env) (edit : Host.Edit),
    let paths :=
      Status.file_paths_of
        (Host.get_lines_from_regions self (Host.sel self)
           (Some (Status.all_file_ranges self))) in
    let anchored := fun p =>
      if Py.startswith p (py"/") then p else py"/" ++ p in
    Status.GsStatusIgnoreFileCommand_run self edit =
      (match paths with
       | [] => []
       | _ :: _ =>
           map (fun p => Host.GitCommand (Host.add_ignore (anchored p))) paths
           ++ [ Host.window_status_message
                  (py"Successfully ignored files.");
                Host.refresh_gitsavvy ]
       end, inr tt) /\
    (forall p, Py.startswith (anchored p) (py"/") = true).
Proof.
  intros self edit paths anchored. split.
  - unfold Status.GsStatusIgnoreFileCommand_run. fold paths.
    destruct paths as [|p rest]; [reflexivity|].
    cbn [Py.nonempty].
    rewrite (for_each_emit
               (fun p => Host.GitCommand
                           (Host.add_ignore (Py.path_join (py"/") p)))).
    rewrite bind_log.
    rewrite (map_ext _
               (fun p => Host.GitCommand (Host.add_ignore (anchored p)))).
    + reflexivity.
    + intros q. unfold anchored.
      rewrite (proj1 (path_join_root q)). reflexivity.
  - intros p. unfold anchored.
    rewrite <- (proj1 (path_join_root p)). apply path_join_root.
Qed.

(** ** The width of the age column *)

Section AgeWidth.

Import Status.




End AgeWidth.



(** ** Opening the files of rendered rows *)

Section OpenRows.

Import Host Status.

Lemma open_paths_of_rows (interface : StatusInterface)
    (entries : list FileStatus) :
  Forall (fun f =>
            length (format_modification_time interface (modified f)) = 3)
         entries ->
  map (fun line => Py.strip (Py.slice line 7 None))
      (filter is_file_line (map (unstaged_line interface) entries))
  = map (fun f => Py.strip (path f))
        (filter (fun f => negb (Py.eqb (working_status f) (py"D")))
                entries).
Proof.
  induction 1 as [|f entries Hf _ IH]; [reflexivity|].
  destruct (rows_read interface f Hf) as (_ & Hp & _ & _ & Hd & _).
  cbn [map filter]. rewrite Hd.
  destruct (negb (Py.eqb (working_status f) (py"D"))); [|exact IH].
  cbn [map]. rewrite IH. f_equal.
  unfold file_paths_of in Hp.
  assert (Ht : Py.truthy (unstaged_line interface f) = true) by reflexivity.
  cbn [filter] in Hp. rewrite Ht in Hp. cbn [map] in Hp.
  injection Hp as Hp. exact Hp.
Qed.

End OpenRows.

(** X15. Pressing open with every row of the unstaged section selected
    opens the files that still exist: when the lines of the selection are
    the rows that [render_unstaged_files] formats for the unstaged entries,
    and each age is three characters wide, [GsStatusOpenFileCommand.run]
    opens, in order, the stripped path of each entry whose working status
    is not "D", joined to the repository path, and opens nothing for the
    entries marked deleted. *)
Theorem open_file_skips_deleted_rows :
  forall (interface : Status.StatusInterface) (self : Host.Env)
         (edit : Host.Edit),
    Forall (fun f =>
              length (Status.format_modification_time interface
                        (Host.modified f)) = 3)
           (Status.unstaged_entries interface) ->
    Host.get_lines_from_regions self (Host.sel self) None
    = map (Status.unstaged_line interface)
          (Status.unstaged_entries interface) ->
    Status.GsStatusOpenFileCommand_run self edit =
    (map (fun f =>
            Host.window_open_file
              (Py.path_join (Host.repo_path self)
                            (Py.strip (Host.path f))))
         (filter (fun f =>
                    negb (Py.eqb (Host.working_status f) (py"D")))
                 (Status.unstaged_entries interface)),
     inr tt).
Proof.
  intros interface self edit Hages Hlines.
  unfold Status.GsStatusOpenFileCommand_run.
  rewrite Hlines, (open_paths_of_rows interface Hages).
  rewrite for_each_emit, !map_map. reflexivity.
Qed.

Lemma open_file_skips_deleted_rows_example :
  Status.GsStatusOpenFileCommand_run
    (Status.env_with_lines
       (map (Status.unstaged_line
               (Status.interface_with []
                  [ Status.entry (py"src/a.py") (py" ") (py"M");
                    Status.entry (py"gone.txt") (py" ") (py"D") ]))
            [ Status.entry (py"src/a.py") (py" ") (py"M");
              Status.entry (py"gone.txt") (py" ") (py"D") ]))
    Dashboard.sample_edit
  = ([ Host.window_open_file (py"/repo/src/a.py") ], inr tt).
Proof.
  refine (@open_file_skips_deleted_rows
            (Status.interface_with []
               [ Status.entry (py"src/a.py") (py" ") (py"M");
                 Status.entry (py"gone.txt") (py" ") (py"D") ])
            (Status.env_with_lines _) Dashboard.sample_edit _ _).
  - repeat constructor.
  - reflexivity.
Defined.

(** ** The help and the titles *)

Section HelpAndTitle.

Lemma rfind_from_char (c : Py.char) (s : pystr) (i last : Z) :
  (Py.rfind_from s [c] i last = last /\ ~ In c s) \/
  (exists pre post,
     s = pre ++ c :: post /\ ~ In c post /\
     Py.rfind_from s [c] i last = (i + Z.of_nat (length pre))%Z).
Proof.
  revert i last. induction s as [|x s IH]; intros i last.
  - left. split; [reflexivity | intros []].
  - cbn [Py.rfind_from Py.startswith]. rewrite startswith_nil, andb_true_r.
    destruct (IH (i + 1)%Z (if Py.char_eqb c x then i else last))
      as [[Hr Hn]|(pre & post & Hs & Hn & Hr)].
    + rewrite Hr. destruct (Py.char_eqb c x) eqn:E.
      * apply N.eqb_eq in E. subst x. right. exists [], s.
        split; [reflexivity|]. split; [exact Hn|]. cbn. lia.
      * left. split; [reflexivity|]. intros [Hx|Hin]; [|auto].
        subst x. unfold Py.char_eqb in E. rewrite N.eqb_refl in E.
        discriminate.
    + right. exists (x :: pre), post. subst s.
      split; [reflexivity|]. split; [exact Hn|].
      rewrite Hr. cbn [length]. lia.
Qed.

Lemma skipn_after {A} (pre post : list A) (c : A) :
  skipn (length pre + 1) (pre ++ c :: post) = post.
Proof. induction pre as [|x pre IH]; [reflexivity | exact IH]. Qed.

Lemma basename_splits (p : pystr) :
  exists head,
    p = head ++ Py.basename p /\
    ~ In 47%N (Py.basename p) /\
    (head = [] \/ exists pre, head = pre ++ [47%N]).
Proof.
  unfold Py.basename, Py.rfind.
  change (Py.lit "/") with (@cons Py.char 47%N nil).
  destruct (rfind_from_char 47%N p 0 (-1))
    as [[Hr Hn]|(pre & post & Hs & Hn & Hr)]; rewrite Hr.
  - exists []. rewrite slice_from by lia. cbn [Z.add Z.to_nat skipn app].
    auto.
  - exists (pre ++ [47%N]). rewrite slice_from by lia. subst p.
    replace (Z.to_nat (0 + Z.of_nat (length pre) + 1))
      with (length pre + 1) by lia.
    rewrite skipn_after.
    split; [rewrite <- app_assoc; reflexivity|].
    split; [exact Hn|]. right. eauto.
Qed.

Lemma help_bindings_shown :
  Py.contains (Status.template_help_format Status.conflicts_keybindings)
              (py"## CONFLICTS ##") = true /\
  Py.contains (Status.template_help_format []) (py"## CONFLICTS ##")
  = false /\
  Status.template_help_format [] <> [].
Proof.
  split; [vm_compute; reflexivity|].
  split; [vm_compute; reflexivity|]. vm_compute. discriminate.
Qed.

End HelpAndTitle.

(** X16. [render_help] renders the empty string exactly when the help is
    hidden.  When it is shown, it is [template_help] with the conflicts
    key bindings in place of its placeholder, and the heading
    "## CONFLICTS ##" occurs in it exactly when there are conflict
    entries. *)
Theorem help_shows_conflict_bindings :
  forall (self : Status.StatusInterface) (help_hidden : bool),
    (Status.render_help self help_hidden = [] <-> help_hidden = true) /\
    (Py.contains (Status.render_help self help_hidden)
                 (py"## CONFLICTS ##") = true
     <-> help_hidden = false /\ Status.conflict_entries self <> []) /\
    Status.render_help self false =
      Status.template_help_head ++ Status.render_conflicts_bindings self
        ++ Py.nl ++ py"    -" ++ Py.nl ++ py"    ".
Proof.
  intros self help_hidden.
  destruct help_bindings_shown as (Hshown & Hnot & Hne).
  split; [|split; [|reflexivity]].
  - destruct help_hidden; cbn [Status.render_help].
    + split; reflexivity.
    + split; [|discriminate]. intros H. exfalso.
      unfold Status.template_help_format, Status.template_help_head in H.
      discriminate H.
  - unfold Status.render_help, Status.render_conflicts_bindings.
    destruct help_hidden.
    + split; [discriminate | intros [H _]; discriminate].
    + destruct (Status.conflict_entries self) as [|c l]; cbn [Py.nonempty].
      * rewrite Hnot. split; [discriminate | intros [_ H]; now elim H].
      * rewrite Hshown. split; [|reflexivity].
        intros _. split; [reflexivity | discriminate].
Qed.

(** X17. The titles of the two dashboards are "BRANCHES: " and "STATUS: "
    followed by the last component of the repository path: the part of
    the path after its last "/", which holds no "/" and is the whole path
    when the path holds none.  What precedes it is empty or ends with "/";
    so for a path that ends with "/" the name is empty. *)
Theorem titles_name_last_component :
  forall (self : Branch.BranchInterface) (repo_path : pystr),
    (exists head name,
       Branch.repo_path self = head ++ name /\
       Branch.title self = py"BRANCHES: " ++ name /\
       ~ In 47%N name /\
       (head = [] \/ exists pre, head = pre ++ [47%N])) /\
    (exists head name,
       repo_path = head ++ name /\
       Status.title repo_path = py"STATUS: " ++ name /\
       ~ In 47%N name /\
       (head = [] \/ exists pre, head = pre ++ [47%N])) /\
    (forall pre, Py.basename (pre ++ [47%N]) = []).
Proof.
  intros self repo_path. split; [|split].
  - destruct (basename_splits (Branch.repo_path self)) as (head & H1 & H2 & H3).
    exists head, (Py.basename (Branch.repo_path self)). auto.
  - destruct (basename_splits repo_path) as (head & H1 & H2 & H3).
    exists head, (Py.basename repo_path). auto.
  - intros pre.
    destruct (basename_splits (pre ++ [47%N])) as (head & H1 & H2 & _).
    destruct (Py.basename (pre ++ [47%N])) as [|c name] eqn:E using rev_ind;
      [reflexivity|].
    exfalso. rewrite app_assoc in H1. apply app_inj_tail in H1.
    destruct H1 as [_ H1]. subst c. apply H2, in_or_app. right. left.
    reflexivity.
Qed.
